(** * The experiment runner of jckend/adverbial_quantification

    A shallow embedding of [src/hosting/src/experiment.ts] and of its two
    sibling variants: the two callbacks registered with [initJsPsych]
    ([on_data_update], [on_finish]), the exit routines, and the debrief
    screen's [stimulus] function.

    - JavaScript numbers are IEEE-754 binary64 values: [spec_float] at
      precision 53, with the arithmetic of [SpecFloat].
    - A trial's data object is a record whose fields may be absent.
    - The browser, the console, the persistence adapter and the timers are
      one explicit [World], threaded through every handler.
    - A call to the adapter returns a promise, which the environment
      settles later, through an event of its own; the callbacks given to
      [then] run at that point. *)

From Stdlib Require Import ZArith SpecFloat.
From Stdlib Require DecimalString DecimalZ.
From stdpp Require Import base option list strings gmap.

Local Open Scope Z_scope.

(** ** JavaScript numbers *)

Module Number.

Definition prec : Z := 53.
Definition emax : Z := 1024.

Definition number : Type := spec_float.

Definition NaN : number := S754_nan.
Definition of_Z (z : Z) : number := binary_normalize prec emax z 0 false.
Definition of_nat (n : nat) : number := of_Z (Z.of_nat n).

Definition add : number -> number -> number := SFadd prec emax.
Definition mul : number -> number -> number := SFmul prec emax.
Definition div : number -> number -> number := SFdiv prec emax.

Definition isNaN (x : number) : bool :=
  match x with S754_nan => true | _ => false end.

(** The integer nearest to [(-1)^s * m * 2^e], ties going up: the floor of
    that value plus one half, computed exactly. *)
Definition round_Z (s : bool) (m : positive) (e : Z) : Z :=
  let sm := if s then Z.neg m else Z.pos m in
  if 0 <=? e then sm * 2 ^ e
  else (2 * sm + 2 ^ (- e)) / (2 * 2 ^ (- e)).

(** [Math.round]: NaN, the infinities, the zeros and the integral values
    are returned as they are; a value that rounds to zero keeps its
    sign. *)
Definition Math_round (x : number) : number :=
  match x with
  | S754_finite s m e =>
      if 0 <=? e then x
      else
        let z := round_Z s m e in
        if z =? 0 then S754_zero s else of_Z z
  | _ => x
  end.

(** The integer a number denotes, when it denotes one. *)
Definition to_Z (x : number) : option Z :=
  match x with
  | S754_zero _ => Some 0
  | S754_finite s m e =>
      let sm := if s then Z.neg m else Z.pos m in
      if 0 <=? e then Some (sm * 2 ^ e)
      else if (Z.pos m) mod 2 ^ (- e) =? 0 then Some (sm / 2 ^ (- e))
      else None
  | _ => None
  end.

(** [Number.prototype.toString] on NaN, the infinities and the integers
    below 10^21 in magnitude, which print in plain decimal. [None] stands
    for the other values (fractions, exponent notation), whose digits are
    not modelled. *)
Definition toString (x : number) : option string :=
  match x with
  | S754_nan => Some "NaN"%string
  | S754_infinity s => Some (if s then "-Infinity" else "Infinity")%string
  | _ =>
      match to_Z x with
      | Some z =>
          if Z.abs z <? 10 ^ 21
          then Some (DecimalString.NilZero.string_of_int (Z.to_int z))
          else None
      | None => None
      end
  end.

(** [ToNumber] of a value that is a number or [undefined]. *)
Definition ToNumber (v : option number) : number :=
  match v with Some x => x | None => NaN end.

(** Mathematical rounding of the exact quotient [p / q] (for [0 < q]) to
    the nearest integer, ties going up. *)
Definition round_quotient (p q : Z) : Z := (2 * p + q) / (2 * q).

End Number.

Import Number.

(** ** Trial data *)

Inductive Task : Set := task_response | task_fixation.
Inductive Response : Set := resp_left | resp_right.

Definition Task_eqb (a b : Task) : bool :=
  match a, b with
  | task_response, task_response | task_fixation, task_fixation => true
  | _, _ => false
  end.

(** The object the engine hands over after every unit. A property that is
    absent reads as [undefined] ([None]); for [rt], [None] also stands for
    the [null] the engine records when no response was made. *)
Record TrialData : Type := {
  task : option Task;
  response : option Response;
  correct : option bool;
  correct_response : option Response;
  rt : option number;
  saveIncrementally : option bool
}.

(** Truthiness of a property that is a boolean or [undefined]. *)
Definition truthy (v : option bool) : bool :=
  match v with Some b => b | None => false end.

(** ** The engine's data collection

    [DataCollection] and [DataColumn] belong to the jsPsych engine; their
    methods are written here as the engine documents them, for the calls
    the experiment makes. *)

Record DataCollection : Type := { trials : list TrialData }.

Module DataCollection.

Definition values (d : DataCollection) : list TrialData := trials d.

Definition count (d : DataCollection) : number := of_nat (length (trials d)).

(** [filter({ task: t })]: the trials whose [task] is defined and
    strictly equal to [t]. *)
Definition task_is (t : Task) (x : TrialData) : bool :=
  match task x with Some t' => Task_eqb t' t | None => false end.

Definition filter_task (t : Task) (d : DataCollection) : DataCollection :=
  {| trials := List.filter (task_is t) (trials d) |}.

(** [filter({ correct: b })]. *)
Definition correct_is (b : bool) (x : TrialData) : bool :=
  match correct x with Some b' => Bool.eqb b' b | None => false end.

Definition filter_correct (b : bool) (d : DataCollection) : DataCollection :=
  {| trials := List.filter (correct_is b) (trials d) |}.

(** [select('rt')], restricted to the values [mean] takes into account:
    the column skips [undefined], the mean skips [null]. *)
Definition select_rt (d : DataCollection) : list number :=
  omap rt (trials d).

End DataCollection.

Module DataColumn.

Definition sum (vs : list number) : number :=
  fold_left add vs (of_Z 0).

(** [mean()]: [undefined] on a column without values. *)
Definition mean (vs : list number) : option number :=
  match vs with
  | [] => None
  | _ => Some (div (sum vs) (of_nat (length vs)))
  end.

End DataColumn.

(** ** The debrief screen *)

Record Summary : Type := { accuracy : number; reaction_time : number }.

(** The two constants of [debrief_block.stimulus]. *)
Definition debrief_summary (data : DataCollection) : Summary :=
  let trials := DataCollection.filter_task task_response data in
  let correct_trials := DataCollection.filter_correct true trials in
  {| accuracy :=
       Math_round
         (mul (div (DataCollection.count correct_trials)
                   (DataCollection.count trials))
              (of_Z 100));
     reaction_time :=
       Math_round
         (ToNumber (DataColumn.mean (DataCollection.select_rt correct_trials))) |}.

Definition debrief_html (accuracy rt : string) : string :=
  ("<p>You responded correctly on " ++ accuracy ++ "% of the trials.</p>
          <p>Your average response time was " ++ rt ++ "ms.</p>
          <p>Press any key to complete the experiment. Thank you!</p>")%string.

(** [debrief_block.stimulus], given [jsPsych.data.get()]. *)
Definition debrief_stimulus (data : DataCollection) : option string :=
  let s := debrief_summary data in
  a ← toString (accuracy s);
  r ← toString (reaction_time s);
  Some (debrief_html a r).

(** ** The world the callbacks act on *)

(** [error: unknown], the reason a promise rejects with. *)
Definition Reason : Type := string.

Inductive Printed : Type :=
| PStr (s : string)
| PUserInfo (info : string)
| PTrial (trialData : TrialData)
| PData (data : DataCollection).

Inductive ConsoleEntry : Type :=
| console_log (args : list Printed)
| console_error (error : Reason).

(** What a [setTimeout] callback of this file does when it fires. *)
Inductive TimerTask : Type :=
| location_replace (url : string)
| displayData.

(** The two operations of [./lib/databaseUtils]. *)
Inductive AdapterCall : Type :=
| saveTrialDataPartial (record : TrialData)
| saveTrialDataComplete (records : list TrialData).

(** The page: either the layout the engine built, in which an element with
    id [jspsych-content] may be present (with its [innerHTML]), or the
    markup assigned to [document.body.innerHTML], which replaces that
    layout and holds no such element. *)
Inductive Document : Type :=
| EnginePage (jspsych_content : option string)
| BodyMarkup (html : string).

Record World : Type := {
  jsPsych_data : list TrialData;      (* what [jsPsych.data.get()] holds *)
  document : Document;
  console : list ConsoleEntry;
  adapter_calls : list AdapterCall;   (* the calls dispatched, oldest first *)
  settled : gset nat;                 (* the calls whose promise is settled *)
  timers : list (Z * TimerTask);      (* delay in ms, callback *)
  debugPanel_updates : nat            (* calls of [updateDebugPanel] *)
}.

Definition Action : Type := World -> World.

Definition skip : Action := fun w => w.
Definition seq_action (a b : Action) : Action := fun w => b (a w).
Declare Scope action_scope.
Delimit Scope action_scope with action.
Notation "a ;; b" := (seq_action a b)
  (at level 100, b at level 200, right associativity) : action_scope.
Local Open Scope action_scope.
Definition when (c : bool) (a : Action) : Action := if c then a else skip.

Definition data_write (trialData : TrialData) : Action := fun w =>
  {| jsPsych_data := jsPsych_data w ++ [trialData]; document := document w;
     console := console w; adapter_calls := adapter_calls w; settled := settled w;
     timers := timers w; debugPanel_updates := debugPanel_updates w |}.

Definition set_document (f : Document -> Document) : Action := fun w =>
  {| jsPsych_data := jsPsych_data w; document := f (document w);
     console := console w; adapter_calls := adapter_calls w; settled := settled w;
     timers := timers w; debugPanel_updates := debugPanel_updates w |}.

Definition print (entry : ConsoleEntry) : Action := fun w =>
  {| jsPsych_data := jsPsych_data w; document := document w;
     console := console w ++ [entry]; adapter_calls := adapter_calls w;
     settled := settled w; timers := timers w;
     debugPanel_updates := debugPanel_updates w |}.

(** Calling the adapter and attaching callbacks to the promise it returns:
    the call is recorded, and nothing of the callbacks runs yet. *)
Definition dispatch (c : AdapterCall) : Action := fun w =>
  {| jsPsych_data := jsPsych_data w; document := document w;
     console := console w;
     adapter_calls := adapter_calls w ++ [c];
     settled := settled w; timers := timers w;
     debugPanel_updates := debugPanel_updates w |}.

Definition mark_settled (i : nat) : Action := fun w =>
  {| jsPsych_data := jsPsych_data w; document := document w;
     console := console w; adapter_calls := adapter_calls w;
     settled := {[ i ]} ∪ settled w; timers := timers w;
     debugPanel_updates := debugPanel_updates w |}.

Definition setTimeout (task : TimerTask) (ms : Z) : Action := fun w =>
  {| jsPsych_data := jsPsych_data w; document := document w;
     console := console w; adapter_calls := adapter_calls w; settled := settled w;
     timers := timers w ++ [(ms, task)];
     debugPanel_updates := debugPanel_updates w |}.

Definition updateDebugPanel : Action := fun w =>
  {| jsPsych_data := jsPsych_data w; document := document w;
     console := console w; adapter_calls := adapter_calls w; settled := settled w;
     timers := timers w; debugPanel_updates := S (debugPanel_updates w) |}.

(** [document.querySelector('#jspsych-content')]. *)
Definition querySelector_content (d : Document) : option string :=
  match d with
  | EnginePage c => c
  | BodyMarkup _ => None
  end.

(** [const contentDiv = document.querySelector('#jspsych-content');
    if (contentDiv) contentDiv.innerHTML = html]. *)
Definition set_content_if_present (html : string) (d : Document) : Document :=
  match querySelector_content d with
  | Some _ => EnginePage (Some html)
  | None => d
  end.

(** What the participant can see or will see: the page, the timers that are
    pending, and the debug panel. The console and the adapter are not part
    of it. *)
Definition user_visible (w : World) : Document * list (Z * TimerTask) * nat :=
  (document w, timers w, debugPanel_updates w).

Definition is_partial (c : AdapterCall) : bool :=
  match c with saveTrialDataPartial _ => true | saveTrialDataComplete _ => false end.

(** The save-one and the save-all calls the adapter has received. *)
Definition save_one_calls (w : World) : list AdapterCall :=
  List.filter is_partial (adapter_calls w).

Definition save_all_calls (w : World) : list AdapterCall :=
  List.filter (fun c => negb (is_partial c)) (adapter_calls w).

(** ** The experiment *)

(** The values imported from [./globalVariables], resolved once. *)
Record GlobalVariables : Type := {
  debugging : bool;
  mockStore : bool;
  getUserInfo : string;
  prolificCC : string;
  prolificCUrl : string
}.

Inductive Outcome : Type :=
| fulfilled
| rejected (error : Reason).

(** What the environment does to the program: the engine completes a unit
    or the whole timeline, or a promise settles. *)
Inductive Event : Type :=
| unit_completed (trialData : TrialData)
| timeline_finished
| settle (i : nat) (o : Outcome).

(** The double-quote character (code 34), as a string. *)
Definition dquote : string :=
  String (Ascii.Ascii false true false false false true false false) EmptyString.

Section Experiment.

Variable env : GlobalVariables.

Definition debug : bool := debugging env.
Definition mock : bool := mockStore env.

Definition debuggingText : string :=
  if debug then ("<br /><br />redirect link : " ++ prolificCUrl env)%string
  else "<br />"%string.

Definition exitMessage : string :=
  ("<p class=" ++ dquote ++ "text-center align-middle" ++ dquote ++ ">
Please wait. You will be redirected back to Prolific in a few moments.
<br /><br />
If not, please use the following completion code to ensure compensation for this study: " ++ prolificCC env ++ "
" ++ debuggingText ++ "
</p>")%string.

Definition exitExperiment : Action :=
  set_document (fun _ => BodyMarkup exitMessage) ;;
  setTimeout (location_replace (prolificCUrl env)) 3000.

Definition exitExperimentDebugging : Action :=
  set_document (set_content_if_present exitMessage).

(** The callbacks of [saveTrialDataPartial(...).then]. *)
Definition partial_fulfilled : Action :=
  when debug
    (print (console_log [PStr "saveTrialDataPartial: Success"]) ;;
     when mock updateDebugPanel).

Definition partial_rejected (error : Reason) : Action :=
  print (console_error error).

Definition on_data_update (trialData : TrialData) : Action :=
  when debug
    (print (console_log [PStr "jsPsych-update :: trialData ::"; PTrial trialData])) ;;
  when (truthy (saveIncrementally trialData))
    (dispatch (saveTrialDataPartial trialData)).

(** The callbacks of [saveTrialDataComplete(...).then]. *)
Definition complete_fulfilled (data : DataCollection) : Action :=
  if debug then
    exitExperimentDebugging ;;
    print (console_log [PStr "saveTrialDataComplete: Success"]) ;;
    print (console_log [PStr "jsPsych-finish :: data ::"]) ;;
    print (console_log [PData data]) ;;
    setTimeout displayData 3000
  else
    exitExperiment.

Definition complete_rejected (error : Reason) : Action :=
  print (console_error error) ;;
  exitExperiment.

Definition on_finish (data : DataCollection) : Action :=
  set_document
    (set_content_if_present "<p> Please wait, your data are being saved.</p>") ;;
  dispatch (saveTrialDataComplete (DataCollection.values data)).

(** Running the callback given to [then] on the promise of a call, on its
    outcome: the pair written in [on_data_update] for a save-one call, the
    pair written in [on_finish] for a save-all call. The latter closes over
    [data], the collection whose values the call was made with. *)
Definition run_then (c : AdapterCall) (o : Outcome) : Action :=
  match c, o with
  | saveTrialDataPartial _, fulfilled => partial_fulfilled
  | saveTrialDataPartial _, rejected error => partial_rejected error
  | saveTrialDataComplete records, fulfilled =>
      complete_fulfilled {| trials := records |}
  | saveTrialDataComplete _, rejected error => complete_rejected error
  end.

(** One event. The engine writes a unit's data before it calls
    [on_data_update], and hands [jsPsych.data.get()] to [on_finish]. A
    promise settles once: settling one that is unknown or already settled
    does nothing. *)
Definition step (ev : Event) : Action := fun w =>
  match ev with
  | unit_completed trialData =>
      (data_write trialData ;; on_data_update trialData) w
  | timeline_finished =>
      on_finish {| trials := jsPsych_data w |} w
  | settle i o =>
      if decide (i ∈ settled w) then w
      else
        match adapter_calls w !! i with
        | Some c => (mark_settled i ;; run_then c o) w
        | None => w
        end
  end.

Definition run (evs : list Event) (w : World) : World :=
  fold_left (fun w ev => step ev w) evs w.

End Experiment.

(** The world in which the page was loaded. *)
Definition loaded (page : Document) : World :=
  {| jsPsych_data := []; document := page; console := []; adapter_calls := [];
     settled := ∅; timers := []; debugPanel_updates := 0 |}.

(** The world when [runExperiment] hands the timeline to the engine: the
    two lines it prints in debug mode are on the console. *)
Definition start (env : GlobalVariables) (page : Document) : World :=
  (when (debug env)
     (print (console_log [PStr "--runExperiment--"]) ;;
      print (console_log [PStr "UserInfo ::"; PUserInfo (getUserInfo env)])))
    (loaded page).

Arguments exitMessage : simpl never.

(** [jsPsych.data.get()]. *)
Definition jsPsych_data_get (w : World) : DataCollection :=
  {| trials := jsPsych_data w |}.

(** The records of the units an event sequence completes, in order. *)
Definition units_completed (evs : list Event) : list TrialData :=
  omap (fun ev => match ev with unit_completed t => Some t | _ => None end) evs.

(** The promise of call [i] is pending: the call was made and has not
    settled. *)
Definition pending (i : nat) (w : World) : option AdapterCall :=
  if decide (i ∈ settled w) then None else adapter_calls w !! i.

(** ** Vocabulary of the statements *)

(** Everything but the console and the bookkeeping of settled promises. *)
Definition timeline_view (w : World)
  : list TrialData * Document * list AdapterCall * list (Z * TimerTask) * nat :=
  (jsPsych_data w, document w, adapter_calls w, timers w, debugPanel_updates w).

Definition settles (i : nat) (ev : Event) : bool :=
  match ev with
  | settle j _ => Nat.eqb j i
  | _ => false
  end.

(** Two worlds that differ in the console at most, and in whether promise
    [i] is settled. *)
Definition agree_but (i : nat) (w1 w2 : World) : Prop :=
  timeline_view w1 = timeline_view w2
  /\ forall j, j <> i -> (j ∈ settled w1 <-> j ∈ settled w2).

(** A participant's session, and one run in debug mode against the mock
    store. *)
Definition env_live : GlobalVariables :=
  {| debugging := false; mockStore := false; getUserInfo := "participant 5f1c";
     prolificCC := "C1A2B3C4"; prolificCUrl := "https://app.prolific.com/submissions/complete" |}.

Definition env_debug : GlobalVariables :=
  {| debugging := true; mockStore := true; getUserInfo := "participant 5f1c";
     prolificCC := "C1A2B3C4"; prolificCUrl := "https://app.prolific.com/submissions/complete" |}.

Definition response_trial (c : bool) (ms : Z) : TrialData :=
  {| task := Some task_response; response := Some resp_left;
     correct := Some c; correct_response := Some (if c then resp_left else resp_right);
     rt := Some (of_Z ms); saveIncrementally := Some true |}.

Definition fixation_trial : TrialData :=
  {| task := Some task_fixation; response := None; correct := None;
     correct_response := None; rt := None; saveIncrementally := Some false |}.

Definition three_trials : list TrialData :=
  [response_trial true 500; response_trial false 700; response_trial true 300].

(** The world after the three units of [three_trials], no promise settled. *)
Definition after_three (env : GlobalVariables) : World :=
  run env (map unit_completed three_trials) (start env (EnginePage (Some ""))).

(** The event is the success of a pending save-one call, and the debug and
    the mock-store flags are both on. *)
Definition save_one_succeeds_in_debug_mock
    (env : GlobalVariables) (ev : Event) (w : World) : bool :=
  match ev with
  | settle i fulfilled =>
      match pending i w with
      | Some (saveTrialDataPartial _) => debugging env && mockStore env
      | _ => false
      end
  | _ => false
  end.

Definition is_finish (ev : Event) : bool :=
  match ev with timeline_finished => true | _ => false end.

(** The world once the timeline of [three_trials] has finished and
    [on_finish] has run: the save-all call is call number 3. *)
Definition finishing (env : GlobalVariables) : World :=
  step env timeline_finished (after_three env).

(** The response-tagged trials of a collection, and the correct ones among
    them. *)
Definition response_trials (data : DataCollection) : list TrialData :=
  List.filter (DataCollection.task_is task_response) (trials data).

Definition correct_response_trials (data : DataCollection) : list TrialData :=
  List.filter (DataCollection.correct_is true) (response_trials data).

(** The percentage as the code computes it from the two counts: the
    quotient first, then the product with 100, each rounded to binary64. *)
Definition accuracy_of (c t : nat) : number :=
  Math_round (mul (div (of_nat c) (of_nat t)) (of_Z 100)).

(** The percentage of the written formula: 100 * c / t, rounded to the
    nearest integer. *)
Definition rounded_percentage (c t : nat) : Z :=
  round_quotient (100 * Z.of_nat c) (Z.of_nat t).

Definition agrees (c t : nat) : bool :=
  match to_Z (accuracy_of c t) with
  | Some z => z =? rounded_percentage c t
  | None => false
  end.

(** [agrees c t] for every [1 <= t <= n] and [c <= t]. *)
Definition agrees_upto (n : nat) : bool :=
  forallb (fun t => forallb (fun c => agrees c t) (seq 0 (S t))) (seq 1 n).

(** The record the dot-motion trial of the debrief variant leaves: a key
    press with its time, and no task tag. *)
Definition rdk_record : TrialData :=
  {| task := None; response := None; correct := Some true;
     correct_response := None; rt := Some (of_Z 640); saveIncrementally := None |}.

(** Forty response trials, twenty-three of them correct. *)
Definition forty_trials : list TrialData :=
  repeat (response_trial true 500) 23 ++ repeat (response_trial false 700) 17.

(** [debrief_block.stimulus] as the engine calls it, on what
    [jsPsych.data.get()] returns at that point. *)
Definition debrief_block_stimulus (w : World) : option string :=
  debrief_stimulus (jsPsych_data_get w).

(** ** Vocabulary of the session properties *)

(** The unit's record asks for an incremental save. *)
Definition flagged (t : TrialData) : bool := truthy (saveIncrementally t).

(** The reasons of the rejections an event sequence holds, in order. *)
Definition rejections (evs : list Event) : list Reason :=
  omap (fun ev => match ev with settle _ (rejected e) => Some e | _ => None end)
       evs.

Definition no_finish (evs : list Event) : bool :=
  forallb (fun ev => negb (is_finish ev)) evs.

(** The one timer [exitExperiment] sets. *)
Definition redirect (env : GlobalVariables) : Z * TimerTask :=
  (3000, location_replace (prolificCUrl env)).

(** The page after [on_finish] has written its notice, where it can. *)
Definition saving_page (page : Document) : Document :=
  set_content_if_present "<p> Please wait, your data are being saved.</p>" page.

(** The same configuration with another completion URL. *)
Definition with_url (env : GlobalVariables) (url : string) : GlobalVariables :=
  {| debugging := debugging env; mockStore := mockStore env;
     getUserInfo := getUserInfo env; prolificCC := prolificCC env;
     prolificCUrl := url |}.

(** Call number [k] is a save-all call, and the only one. *)
Definition only_save_all_at (k : nat) (w : World) : Prop :=
  (exists records, adapter_calls w !! k = Some (saveTrialDataComplete records))
  /\ forall j c, j <> k -> adapter_calls w !! j = Some c -> is_partial c = true.

(** Only calls that were made have settled. *)
Definition settled_in_range (w : World) : Prop :=
  forall i, i ∈ settled w -> (i < length (adapter_calls w))%nat.

(** ** Vocabulary of the debrief properties *)

(** What can be said of the accuracy computed from [c] correct trials out
    of [t]: it is an integer from 0 to 100, the rounded percentage or the
    integer just below it, 100 when all trials are correct and 0 when none
    is. *)
Definition accuracy_in_range (c t : nat) : bool :=
  match to_Z (accuracy_of c t) with
  | Some z =>
      (0 <=? z) && (z <=? 100)
      && (rounded_percentage c t - 1 <=? z) && (z <=? rounded_percentage c t)
      && (if Nat.eqb c t then z =? 100 else true)
      && (if Nat.eqb c 0 then z =? 0 else true)
  | None => false
  end.

(** [accuracy_in_range c t] for every [1 <= t <= n] and [c <= t]. *)
Definition accuracy_in_range_upto (n : nat) : bool :=
  forallb (fun t => forallb (fun c => accuracy_in_range c t) (seq 0 (S t)))
          (seq 1 n).

Definition wrong_trials : list TrialData :=
  [response_trial false 700; response_trial false 650].

(** ** The timelines

    What [runExperiment] pushes on [timeline] before it hands it to the
    engine, in the three variants of the experiment. A trial descriptor is
    the object literal of the source: the plugin, its parameters, and the
    [data] the engine is to store with the trial. *)

Definition number_sub : number -> number -> number := SFsub Number.prec Number.emax.

(** The two image assets the variants import. *)
Definition imgStimBlue : string := "./images/blue.png".
Definition imgStimOrange : string := "./images/orange.png".

Inductive Plugin : Set :=
| jsPsychPreload
| jsPsychHtmlKeyboardResponse
| jsPsychRdk.

(** [type]: a plugin, or the bare name one variant writes in its place. *)
Inductive TrialType : Set :=
| plugin (p : Plugin)
| plugin_name (name : string).

(** A parameter given once for all apertures, or once per aperture. *)
Inductive PerAperture (A : Type) : Type :=
| for_all (x : A)
| for_each (xs : list A).
Arguments for_all {A} x.
Arguments for_each {A} xs.

Inductive Choices : Type :=
| NO_KEYS
| keys (ks : list string).

(** [jsPsych.randomization.sampleWithoutReplacement(arr, size)]: the first
    [size] items of a shuffle of [arr]. The shuffle is the engine's draw; it
    is the first argument here. *)
Definition sampleWithoutReplacement {A : Type}
    (shuffle : list A -> list A) (arr : list A) (size : nat) : list A :=
  take size (shuffle arr).

(** A duration in ms: a number, or a function the engine calls when the
    trial starts, which draws with the engine's shuffle. [None] is
    [undefined]. *)
Inductive Duration : Type :=
| ms (n : Z)
| drawn (f : (list Z -> list Z) -> option Z).

(** A stimulus: markup, or a function of the data collected so far. *)
Inductive Stimulus : Type :=
| markup (html : string)
| computed (f : DataCollection -> option string).

(** No property at all: a descriptor without [data], a plugin that reports
    none of these keys. *)
Definition no_data : TrialData :=
  {| task := None; response := None; correct := None;
     correct_response := None; rt := None; saveIncrementally := None |}.

Module Preload.
Record params : Type := { images : list string }.
End Preload.

Module Html.
Record params : Type := {
  stimulus : Stimulus;
  choices : option Choices;
  trial_duration : option Duration;
  post_trial_gap : option Z;
  data : TrialData
}.
End Html.

Module Rdk.
Record params : Type := {
  type : TrialType;
  number_of_apertures : option nat;
  trial_duration : Z;
  correct_choice : string;
  RDK_type : Z;
  aperture_type : option Z;
  move_distance : option (PerAperture number);
  dot_color : PerAperture string;
  aperture_width : option Z;
  number_of_dots : PerAperture Z;
  aperture_center_x : option (PerAperture number);
  post_trial_gap : option Z;
  choices : option (list string);
  coherent_direction : option Z;
  background_color : option string
}.

(** The number of apertures of a trial: one, unless it says more. *)
Definition apertures (p : params) : nat :=
  match number_of_apertures p with Some n => n | None => 1%nat end.

(** A parameter fits: it is given once, or once per aperture. *)
Definition fits {A : Type} (n : nat) (v : PerAperture A) : bool :=
  match v with
  | for_all _ => true
  | for_each xs => Nat.eqb (length xs) n
  end.

Definition opt_fits {A : Type} (n : nat) (v : option (PerAperture A)) : bool :=
  match v with Some v => fits n v | None => true end.

(** Every parameter given per aperture has as many entries as the trial has
    apertures. *)
Definition well_formed (p : params) : bool :=
  opt_fits (apertures p) (move_distance p)
  && fits (apertures p) (dot_color p)
  && fits (apertures p) (number_of_dots p)
  && opt_fits (apertures p) (aperture_center_x p).
End Rdk.

Inductive Descriptor : Type :=
| preload_unit (p : Preload.params)
| html_unit (p : Html.params)
| rdk_unit (p : Rdk.params).

(** An entry of [timeline]: a trial, or a procedure, an object with a
    [timeline] of trials of its own, a number of [repetitions] and the
    [randomize_order] flag. *)
Inductive Node : Type :=
| trial (d : Descriptor)
| procedure (timeline : list Descriptor) (repetitions : nat)
            (randomize_order : bool).

(** The [data] of a descriptor. *)
Definition data_of (d : Descriptor) : TrialData :=
  match d with
  | html_unit p => Html.data p
  | preload_unit _ | rdk_unit _ => no_data
  end.

(** The trials a timeline holds, as declared. *)
Definition units (timeline : list Node) : list Descriptor :=
  flat_map (fun n => match n with
                     | trial d => [d]
                     | procedure tl _ _ => tl
                     end) timeline.

Definition rdk_trials (timeline : list Node) : list Rdk.params :=
  omap (fun d => match d with rdk_unit p => Some p | _ => None end)
       (units timeline).



(** A bound on one pass over the trials of a procedure, wider than what the
    engine does: the declared order, and under [randomize_order] any
    reordering of it as well. What holds of every such pass holds of the
    engine's, and would hold of an engine that shuffled the trials. *)
Definition a_pass (randomize_order : bool) (tl o : list Descriptor) : Prop :=
  match randomize_order with
  | true => o ≡ₚ tl
  | false => o = tl
  end.

(** The orders a session may follow, within that bound. A trial is
    presented once; a procedure is presented [repetitions] times over, one
    pass after the other. [schedule] is one of these orders. *)
Inductive presents_node : Node -> list Descriptor -> Prop :=
| presents_trial d : presents_node (trial d) [d]
| presents_procedure tl reps rnd orders :
    length orders = reps ->
    Forall (a_pass rnd tl) orders ->
    presents_node (procedure tl reps rnd) (concat orders).

Inductive presents : list Node -> list Descriptor -> Prop :=
| presents_nil : presents [] []
| presents_cons n o timeline os :
    presents_node n o -> presents timeline os ->
    presents (n :: timeline) (o ++ os).

(** The record the engine stores for a trial: what the plugin reports and
    the [data] of the descriptor, merged. On a property both have, the
    engine's version 7 keeps the descriptor's value, which is what
    [trial_record] does; version 8 keeps the plugin's
    ([trial_record_plugin_first]). The two agree on every trial of the three
    variants. *)
Definition override {A : Type} (x y : option A) : option A :=
  match x with Some _ => x | None => y end.

Definition trial_record (d : Descriptor) (out : TrialData) : TrialData :=
  let tags := data_of d in
  {| task := override (task tags) (task out);
     response := override (response tags) (response out);
     correct := override (correct tags) (correct out);
     correct_response := override (correct_response tags) (correct_response out);
     rt := override (rt tags) (rt out);
     saveIncrementally :=
       override (saveIncrementally tags) (saveIncrementally out) |}.

Definition trial_record_plugin_first (d : Descriptor) (out : TrialData)
  : TrialData :=
  let tags := data_of d in
  {| task := override (task out) (task tags);
     response := override (response out) (response tags);
     correct := override (correct out) (correct tags);
     correct_response := override (correct_response out) (correct_response tags);
     rt := override (rt out) (rt tags);
     saveIncrementally :=
       override (saveIncrementally out) (saveIncrementally tags) |}.

(** The [data] of the descriptor holds a [task] at most. *)
Definition task_tag_only (d : Descriptor) : bool :=
  match data_of d with
  | {| task := _; response := None; correct := None; correct_response := None;
       rt := None; saveIncrementally := None |} => true
  | _ => false
  end.

(** What the three plugins report holds no [task] and no
    [saveIncrementally] key. *)
Definition plugin_output (out : TrialData) : bool :=
  match task out, saveIncrementally out with
  | None, None => true
  | _, _ => false
  end.

(** The descriptor asks for no incremental save and carries no task tag
    but, at most, the fixation one. *)
Definition untagged (d : Descriptor) : bool :=
  match saveIncrementally (data_of d), task (data_of d) with
  | None, None | None, Some task_fixation => true
  | _, _ => false
  end.

Definition half : number := div (of_Z 1) (of_Z 2).

(** [window.innerWidth/2], [(window.innerWidth/2)-150] and
    [(window.innerWidth/2)+150]. *)
Definition centre (innerWidth : number) : number := div innerWidth (of_Z 2).
Definition centre_left (innerWidth : number) : number :=
  number_sub (centre innerWidth) (of_Z 150).
Definition centre_right (innerWidth : number) : number :=
  add (centre innerWidth) (of_Z 150).

(** The parameters an RDK trial of three apertures is written with. *)
Definition three_apertures (correct_choice : string) (aperture_type : option Z)
    (move_distance : list number) (dot_color : list string)
    (aperture_width : Z) (number_of_dots : list Z)
    (aperture_center_x : list number) : Rdk.params :=
  {| Rdk.type := plugin jsPsychRdk;
     Rdk.number_of_apertures := Some 3%nat;
     Rdk.trial_duration := 10000;
     Rdk.correct_choice := correct_choice;
     Rdk.RDK_type := 3;
     Rdk.aperture_type := aperture_type;
     Rdk.move_distance := Some (for_each move_distance);
     Rdk.dot_color := for_each dot_color;
     Rdk.aperture_width := Some aperture_width;
     Rdk.number_of_dots := for_each number_of_dots;
     Rdk.aperture_center_x := Some (for_each aperture_center_x);
     Rdk.post_trial_gap := None;
     Rdk.choices := None;
     Rdk.coherent_direction := None;
     Rdk.background_color := None |}.

(** A key-press screen that shows markup and, maybe, waits after it. *)
Definition screen (html : string) (gap : option Z) : Descriptor :=
  html_unit {| Html.stimulus := markup html; Html.choices := None;
                Html.trial_duration := None; Html.post_trial_gap := gap;
                Html.data := no_data |}.

Definition preload : Descriptor :=
  preload_unit {| Preload.images := [imgStimBlue; imgStimOrange] |}.

Definition welcome : Descriptor :=
  screen ("<span class=" ++ dquote ++ "text-xl" ++ dquote ++ ">Welcome to the experiment. Press any key to begin.</span>")%string None.

(** ** [src/hosting/src/experiment.ts] *)

Module Hosting.

Definition instructions : Descriptor :=
  screen ("
<p>In this experiment, you will do stuff blah blah blah.</p>
<p>Press any key to begin.</p>
    ")%string (Some 2000).

Definition fixation_durations : list Z :=
  [250; 500; 750; 1000; 1250; 1500; 1750; 2000].

(** [fixation.trial_duration]. *)
Definition fixation_trial_duration (shuffle : list Z -> list Z) : option Z :=
  sampleWithoutReplacement shuffle fixation_durations 1 !! 0%nat.

Definition fixation : Descriptor :=
  html_unit
    {| Html.stimulus := markup ("<div style=" ++ dquote ++ "font-size:60px;" ++ dquote ++ ">+</div>")%string;
       Html.choices := Some NO_KEYS;
       Html.trial_duration := Some (drawn fixation_trial_duration);
       Html.post_trial_gap := None;
       Html.data :=
         {| task := Some task_fixation; response := None; correct := None;
            correct_response := None; rt := None; saveIncrementally := None |} |}.

Section Window.

Variable innerWidth : number.

Definition trial1 : Descriptor :=
  rdk_unit
    (three_apertures "a" (Some 1) [of_Z 0; of_Z 1; of_Z 1]
       ["yellow"; "yellow"; "blue"] 500 [150; 50; 200]
       [centre_left innerWidth; centre_left innerWidth; centre_right innerWidth]).

Definition trial2 : Descriptor :=
  rdk_unit
    (three_apertures "f" None [of_Z 1; of_Z 0; of_Z 1]
       ["yellow"; "yellow"; "blue"] 200 [150; 50; 200]
       [centre_left innerWidth; centre_left innerWidth; centre_right innerWidth]).

Definition trial3 : Descriptor :=
  rdk_unit
    (three_apertures "a" None [of_Z 1; half; of_Z 0]
       ["yellow"; "blue"; "blue"] 200 [200; 150; 50]
       [centre_left innerWidth; centre_right innerWidth; centre_right innerWidth]).

Definition trial4 : Descriptor :=
  rdk_unit
    (three_apertures "a" None [of_Z 0; of_Z 1; of_Z 1]
       ["yellow"; "yellow"; "blue"] 200 [150; 50; 200]
       [centre innerWidth; centre innerWidth; centre innerWidth]).

Definition trial5 : Descriptor :=
  rdk_unit
    (three_apertures "f" None [of_Z 1; of_Z 0; of_Z 1]
       ["yellow"; "yellow"; "blue"] 200 [150; 50; 200]
       [centre innerWidth; centre innerWidth; centre innerWidth]).

Definition trial6 : Descriptor :=
  rdk_unit
    (three_apertures "a" None [of_Z 1; half; of_Z 0]
       ["yellow"; "blue"; "blue"] 200 [200; 150; 50]
       [centre innerWidth; centre innerWidth; centre innerWidth]).

Definition blue_always : Descriptor :=
  screen ("
    <p>The blue dots always move.</p>
    ")%string (Some 2000).

Definition yellow_usually : Descriptor :=
  screen ("
    <p>The yellow dots usually move.</p>
    ")%string (Some 2000).

Definition blue_usually : Descriptor :=
  screen ("
    <p>The blue dots usually move.</p>
    ")%string (Some 2000).

Definition blue_often : Descriptor :=
  screen ("
    <p>The blue dots move more often than not.</p>
    ")%string (Some 2000).

(** [test_procedure.timeline]. *)
Definition test_trials : list Descriptor :=
  [fixation; blue_always; trial1; fixation; yellow_usually; trial2;
   fixation; blue_always; trial3; fixation; blue_usually; trial4;
   fixation; blue_often; trial5; fixation; blue_usually; trial6].

Definition test_procedure : Node := procedure test_trials 1 true.

Definition timeline : list Node :=
  [trial preload; trial welcome; trial instructions; test_procedure].

End Window.

End Hosting.

(** ** The variant with three trials in a row ([src/unnamed/part_000]) *)

Module Variant0.

Section Window.

Variable innerWidth : number.

Definition trial1 : Descriptor :=
  rdk_unit
    (three_apertures "a" None [of_Z 0; of_Z 1; of_Z 1]
       ["yellow"; "yellow"; "blue"] 200 [150; 50; 200]
       [centre_left innerWidth; centre_left innerWidth; centre_right innerWidth]).

Definition timeline : list Node :=
  [trial preload; trial welcome; trial Hosting.instructions;
   trial trial1; trial (Hosting.trial2 innerWidth);
   trial (Hosting.trial3 innerWidth)].

End Window.

End Variant0.

(** ** The variant with the debrief screen ([src/unnamed/part_001]) *)

Module Variant1.

Definition instructions : Descriptor :=
  screen ("
<p>In this experiment, a circle will appear in the center of the screen.</p>
<p>If the circle is <span class=" ++ dquote ++ "font-semibold text-blue-500" ++ dquote ++ ">blue</span>, press the letter <span class=" ++ dquote ++ "font-semibold text-blue-500" ++ dquote ++ ">F</span> on the keyboard as fast as you can.</p>
<p>If the circle is <span class=" ++ dquote ++ "font-semibold text-orange-500" ++ dquote ++ ">orange</span>, press the letter <span class=" ++ dquote ++ "font-semibold text-orange-500" ++ dquote ++ ">J</span> as fast as you can.</p>
<div class=" ++ dquote ++ "w-[700px]" ++ dquote ++ ">
  <div class=" ++ dquote ++ "float-left" ++ dquote ++ ">
    <img src=" ++ dquote ++ imgStimBlue ++ dquote ++ " />
    <p class=" ++ dquote ++ "small" ++ dquote ++ "><strong>Press the F key</strong></p>
  </div>
  <div class=" ++ dquote ++ "float-right" ++ dquote ++ ">
    <img src=" ++ dquote ++ imgStimOrange ++ dquote ++ " />
    <p class=" ++ dquote ++ "small" ++ dquote ++ "><strong>Press the J key</strong></p>
  </div>
</div>
<p>Press any key to begin.</p>
    ")%string (Some 2000).

Definition rdk_trial : Descriptor :=
  rdk_unit
    {| Rdk.type := plugin_name "rdk";
       Rdk.number_of_apertures := None;
       Rdk.trial_duration := 1000;
       Rdk.correct_choice := "a";
       Rdk.RDK_type := 3;
       Rdk.aperture_type := None;
       Rdk.move_distance := None;
       Rdk.dot_color := for_all "black"%string;
       Rdk.aperture_width := None;
       Rdk.number_of_dots := for_all 200;
       Rdk.aperture_center_x := None;
       Rdk.post_trial_gap := Some 0;
       Rdk.choices := Some ["a"; "l"]%string;
       Rdk.coherent_direction := Some 180;
       Rdk.background_color := Some "white"%string |}.

Definition debrief_block : Descriptor :=
  html_unit {| Html.stimulus := computed debrief_stimulus;
                Html.choices := None; Html.trial_duration := None;
                Html.post_trial_gap := None; Html.data := no_data |}.

Definition timeline : list Node :=
  [trial preload; trial welcome; trial instructions; trial rdk_trial;
   trial debrief_block].

End Variant1.

(** A timeline of one of the three variants. *)
Definition a_timeline (tl : list Node) : Prop :=
  (exists innerWidth, tl = Hosting.timeline innerWidth)
  \/ (exists innerWidth, tl = Variant0.timeline innerWidth)
  \/ tl = Variant1.timeline.

(** What three units of the three-trial variant may leave. *)
Definition key_press (r : Response) (ok : bool) (t : Z) : TrialData :=
  {| task := None; response := Some r; correct := Some ok;
     correct_response := None; rt := Some (of_Z t); saveIncrementally := None |}.

(** The records of a session: the first unit presented with the first
    report, and so on, for as many units as have completed. *)
Definition session_records (order : list Descriptor) (outs : list TrialData)
  : list TrialData :=
  zip_with trial_record order outs.

(** ** Proof support *)

Ltac unfold_handlers :=
  unfold step, on_data_update, on_finish, run_then,
    partial_fulfilled, partial_rejected, complete_fulfilled, complete_rejected,
    exitExperiment, exitExperimentDebugging, when, debug, mock in *.

Ltac fields :=
  unfold seq_action, skip, data_write, set_document, print, dispatch,
    mark_settled, setTimeout, updateDebugPanel in *;
  cbn [jsPsych_data document console adapter_calls settled timers
       debugPanel_updates] in *.

(** Case analysis on the two flags, made before the record updates are
    laid out. *)
Ltac by_flags env :=
  unfold_handlers; destruct (debugging env), (mockStore env); fields.

(** *** What each callback does to the calls dispatched *)

Lemma on_data_update_calls env trialData w :
  adapter_calls (on_data_update env trialData w)
  = adapter_calls w ++
    (if truthy (saveIncrementally trialData)
     then [saveTrialDataPartial trialData] else []).
Proof.
  unfold_handlers. destruct (debugging env), (truthy _); fields;
    rewrite ?app_nil_r; reflexivity.
Qed.

Lemma on_finish_calls data w :
  adapter_calls (on_finish data w)
  = adapter_calls w ++ [saveTrialDataComplete (DataCollection.values data)].
Proof. reflexivity. Qed.

Lemma run_then_calls env c o w :
  adapter_calls (run_then env c o w) = adapter_calls w.
Proof. destruct c, o; by_flags env; reflexivity. Qed.

Lemma step_settle env i o w :
  step env (settle i o) w
  = match pending i w with
    | Some c => run_then env c o (mark_settled i w)
    | None => w
    end.
Proof.
  unfold pending. cbn [step]. destruct (decide (i ∈ settled w)); reflexivity.
Qed.

Lemma settle_calls env i o w :
  adapter_calls (step env (settle i o) w) = adapter_calls w.
Proof.
  rewrite step_settle. destruct (pending i w); [|reflexivity].
  rewrite run_then_calls. reflexivity.
Qed.

(** ** Incremental saves *)

(** C1. For every trial-data event handed to [on_data_update]: the adapter
    receives exactly one more save-one call, for that very record, when the
    event's [saveIncrementally] flag is true, and no call at all when the
    flag is false (or absent). The call is asynchronous: when the handler
    returns, nothing is settled and no callback has touched the debug panel.
    Whatever the outcome a promise later settles with, settling dispatches
    no call. *)
Theorem on_data_update_dispatches_once env trialData w :
  let w' := on_data_update env trialData w in
  adapter_calls w'
  = adapter_calls w ++
    match saveIncrementally trialData with
    | Some true => [saveTrialDataPartial trialData]
    | _ => []
    end
  /\ length (save_one_calls w')
     = (length (save_one_calls w)
        + match saveIncrementally trialData with Some true => 1 | _ => 0 end)%nat
  /\ settled w' = settled w
  /\ debugPanel_updates w' = debugPanel_updates w
  /\ forall i o, adapter_calls (step env (settle i o) w') = adapter_calls w'.
Proof.
  cbn zeta. repeat split.
  - rewrite on_data_update_calls.
    destruct (saveIncrementally trialData) as [[]|]; reflexivity.
  - unfold save_one_calls.
    rewrite on_data_update_calls, List.filter_app, length_app.
    destruct (saveIncrementally trialData) as [[]|]; reflexivity.
  - unfold_handlers. destruct (debugging env), (truthy _); reflexivity.
  - unfold_handlers. destruct (debugging env), (truthy _); reflexivity.
  - intros i o. apply settle_calls.
Qed.

(** *** A settlement that only logs leaves the rest of the run alone *)

Lemma agree_but_action (a : Action) i w1 w2 :
  (forall w, settled (a w) = settled w) ->
  (forall u v, timeline_view u = timeline_view v ->
               timeline_view (a u) = timeline_view (a v)) ->
  agree_but i w1 w2 -> agree_but i (a w1) (a w2).
Proof.
  intros Hs Hv [Hview Hset]. split; [auto|].
  intros j Hj. rewrite !Hs. auto.
Qed.

Lemma run_then_settled env c o w :
  settled (run_then env c o w) = settled w.
Proof. destruct c, o; by_flags env; reflexivity. Qed.

Lemma run_then_view env c o u v :
  timeline_view u = timeline_view v ->
  timeline_view (run_then env c o u) = timeline_view (run_then env c o v).
Proof.
  unfold timeline_view. intros H. injection H as Hd Hp Hc Ht Hn.
  destruct c, o; by_flags env; congruence.
Qed.

Lemma on_data_update_settled env t w :
  settled (on_data_update env t w) = settled w.
Proof. unfold_handlers. destruct (debugging env), (truthy _); reflexivity. Qed.

Lemma on_data_update_view env t u v :
  timeline_view u = timeline_view v ->
  timeline_view (on_data_update env t u) = timeline_view (on_data_update env t v).
Proof.
  unfold timeline_view. intros H. injection H as Hd Hp Hc Ht Hn.
  unfold_handlers. destruct (debugging env), (truthy _); fields; congruence.
Qed.

Lemma agree_but_step env i ev w1 w2 :
  settles i ev = false ->
  agree_but i w1 w2 -> agree_but i (step env ev w1) (step env ev w2).
Proof.
  intros Hev Hagree. destruct ev as [t| |j o].
  - cbn [step]. unfold seq_action.
    apply agree_but_action.
    + apply on_data_update_settled.
    + apply on_data_update_view.
    + apply agree_but_action; [reflexivity| |assumption].
      unfold timeline_view, data_write. simpl. intros u v H.
      injection H as Hd Hp Hc Ht Hn. congruence.
  - cbn [step]. destruct Hagree as [Hview Hset].
    assert (jsPsych_data w1 = jsPsych_data w2) as ->
      by (unfold timeline_view in Hview; congruence).
    apply agree_but_action; [reflexivity| |split; assumption].
    unfold timeline_view, on_finish, seq_action, set_document, dispatch.
    simpl. intros u v H. injection H as Hd Hp Hc Ht Hn. congruence.
  - simpl in Hev. apply Nat.eqb_neq in Hev.
    rewrite !step_settle. unfold pending.
    destruct Hagree as [Hview Hset].
    assert (adapter_calls w1 = adapter_calls w2) as Hcalls
      by (unfold timeline_view in Hview; congruence).
    specialize (Hset j Hev) as Hj.
    destruct (decide (j ∈ settled w1)) as [H1|H1],
             (decide (j ∈ settled w2)) as [H2|H2]; try tauto.
    + split; assumption.
    + rewrite Hcalls. destruct (adapter_calls w2 !! j) as [c|].
      * apply agree_but_action.
        -- apply run_then_settled.
        -- apply run_then_view.
        -- split.
           ++ unfold timeline_view, mark_settled. simpl.
              unfold timeline_view in Hview. assumption.
           ++ intros k Hk. unfold mark_settled. simpl.
              rewrite !elem_of_union, (Hset k Hk). reflexivity.
      * split; assumption.
Qed.

Lemma agree_but_run env i evs : forall w1 w2,
  Forall (fun ev => settles i ev = false) evs ->
  agree_but i w1 w2 -> agree_but i (run env evs w1) (run env evs w2).
Proof.
  induction evs as [|ev evs IH]; intros w1 w2 Hevs Hagree; [assumption|].
  inversion Hevs as [|? ? Hev Hrest]; subst.
  cbn [run fold_left]. apply IH; [assumption|].
  apply agree_but_step; assumption.
Qed.

(** C7. When the promise of a save-one call rejects, the error is printed on
    the console and that is all: the world after the rejection is the world
    before it with one more console entry (and the promise marked settled).
    In particular no call is dispatched again, the collected data, the page,
    the timers and the debug panel are as they were; and whatever the engine
    and the other promises do next, the run proceeds exactly as it would
    have without the rejection. *)
Theorem incremental_save_failure_only_logs env i error record w evs :
  pending i w = Some (saveTrialDataPartial record) ->
  let w' := step env (settle i (rejected error)) w in
  w' = print (console_error error) (mark_settled i w)
  /\ console w' = console w ++ [console_error error]
  /\ adapter_calls w' = adapter_calls w
  /\ timeline_view w' = timeline_view w
  /\ (forallb (fun ev => negb (settles i ev)) evs = true ->
      timeline_view (run env evs w') = timeline_view (run env evs w)).
Proof.
  intros Hp. cbn zeta. rewrite step_settle, Hp. cbn [run_then].
  unfold partial_rejected. repeat split.
  intros Hevs. apply (agree_but_run env i evs).
  { apply Forall_forall. intros ev Hin.
    rewrite forallb_forall in Hevs. apply list_elem_of_In, Hevs in Hin.
    destruct (settles i ev); [discriminate Hin|reflexivity]. }
  split; [reflexivity|].
  intros j Hj. unfold print, mark_settled. simpl.
  rewrite elem_of_union, elem_of_singleton. tauto.
Qed.

Lemma incremental_save_failure_witness :
  timeline_view
    (run env_live [unit_completed fixation_trial; settle 0 fulfilled; timeline_finished]
       (step env_live (settle 1 (rejected "unavailable")) (after_three env_live)))
  = timeline_view
      (run env_live [unit_completed fixation_trial; settle 0 fulfilled; timeline_finished]
         (after_three env_live)).
Proof.
  apply (incremental_save_failure_only_logs env_live 1 "unavailable"
           (response_trial false 700) (after_three env_live)).
  - vm_compute. reflexivity.
  - reflexivity.
Defined.

(** ** The debug panel *)

(** C8. Over every event, [updateDebugPanel] is called once when the event
    is the success of a save-one call with the debug and the mock flags both
    on, and is not called otherwise: not on a failure, not when either flag
    is off, not by the handlers themselves, not by the final save. *)
Theorem debug_panel_refresh_iff env ev w :
  debugPanel_updates (step env ev w)
  = (debugPanel_updates w
     + if save_one_succeeds_in_debug_mock env ev w then 1 else 0)%nat.
Proof.
  destruct ev as [t| |i o].
  - unfold_handlers.
    destruct (debugging env), (truthy _); fields; cbn; lia.
  - cbn. lia.
  - rewrite step_settle. unfold save_one_succeeds_in_debug_mock.
    destruct (pending i w) as [[r|rs]|], o as [|e];
      by_flags env; cbn [andb]; lia.
Qed.

(** ** The final save *)

Lemma step_data env ev w :
  jsPsych_data (step env ev w)
  = jsPsych_data w ++ match ev with unit_completed t => [t] | _ => [] end.
Proof.
  destruct ev as [t| |i o].
  - unfold_handlers. destruct (debugging env), (truthy _); reflexivity.
  - cbn. rewrite app_nil_r. reflexivity.
  - rewrite step_settle, app_nil_r. destruct (pending i w) as [c|]; [|reflexivity].
    destruct c, o; by_flags env; reflexivity.
Qed.

Lemma run_data env evs : forall w,
  jsPsych_data (run env evs w) = jsPsych_data w ++ units_completed evs.
Proof.
  induction evs as [|ev evs IH]; intros w; cbn [run fold_left].
  - simpl. rewrite app_nil_r. reflexivity.
  - fold (run env evs (step env ev w)). rewrite IH, step_data.
    destruct ev; simpl; rewrite <- ?app_assoc; reflexivity.
Qed.

Lemma step_save_all env ev w :
  ev <> timeline_finished ->
  save_all_calls (step env ev w) = save_all_calls w.
Proof.
  intros Hev. unfold save_all_calls. destruct ev as [t| |i o]; [|congruence|].
  - cbn [step]. unfold seq_action. rewrite on_data_update_calls.
    rewrite List.filter_app. destruct (truthy _); simpl; rewrite app_nil_r; reflexivity.
  - rewrite settle_calls. reflexivity.
Qed.

Lemma run_save_all env evs : forall w,
  forallb (fun ev => negb (is_finish ev)) evs = true ->
  save_all_calls (run env evs w) = save_all_calls w.
Proof.
  induction evs as [|ev evs IH]; intros w Hevs; [reflexivity|].
  cbn [forallb] in Hevs. apply andb_prop in Hevs as [Hev Hevs].
  cbn [run fold_left]. fold (run env evs (step env ev w)).
  rewrite IH, step_save_all; [reflexivity| |assumption].
  intros ->. discriminate Hev.
Qed.

Lemma run_app env evs1 evs2 w :
  run env (evs1 ++ evs2) w = run env evs2 (run env evs1 w).
Proof. unfold run. apply fold_left_app. Qed.

(** C2. [on_finish] dispatches exactly one call, a save-all call, on the
    values of the collection it is given, and returns before the call
    settles (nothing is printed, no timer is set). Over a whole session: if
    the engine finishes the timeline once, after any course of units and
    settlements, the adapter has received one save-all call in all, and its
    records are the records of the units completed, in order and in
    number. *)
Theorem on_finish_dispatches_one_save_all env page evs data w :
  (adapter_calls (on_finish data w)
   = adapter_calls w ++ [saveTrialDataComplete (DataCollection.values data)]
   /\ settled (on_finish data w) = settled w
   /\ console (on_finish data w) = console w
   /\ timers (on_finish data w) = timers w)
  /\ (forallb (fun ev => negb (is_finish ev)) evs = true ->
      exists records,
        save_all_calls (run env (evs ++ [timeline_finished]) (start env page))
        = [saveTrialDataComplete records]
        /\ records = units_completed evs
        /\ length records = length (units_completed evs)).
Proof.
  split; [repeat split|].
  intros Hevs. exists (units_completed evs). split; [|split; reflexivity].
  rewrite run_app. cbn [run fold_left step].
  fold (run env evs (start env page)).
  unfold save_all_calls. rewrite on_finish_calls, List.filter_app.
  fold (save_all_calls (run env evs (start env page))).
  rewrite run_save_all by assumption.
  unfold DataCollection.values. cbn [trials].
  rewrite run_data. unfold start, when. destruct (debug env); reflexivity.
Qed.

Lemma on_finish_dispatches_witness :
  exists records,
    save_all_calls
      (run env_live
         ([unit_completed (response_trial true 500); settle 0 fulfilled;
           unit_completed (response_trial false 700);
           unit_completed (response_trial true 300); settle 2 (rejected "late")]
          ++ [timeline_finished])
         (start env_live (EnginePage (Some ""))))
    = [saveTrialDataComplete records]
    /\ records = three_trials
    /\ length records = 3%nat.
Proof.
  apply (on_finish_dispatches_one_save_all env_live (EnginePage (Some ""))
           [unit_completed (response_trial true 500); settle 0 fulfilled;
            unit_completed (response_trial false 700);
            unit_completed (response_trial true 300); settle 2 (rejected "late")]
           {| trials := [] |} (loaded (EnginePage (Some "")))).
  reflexivity.
Defined.

(** C10. In [on_finish] the notice that the data are being saved is written
    only where an element with id [jspsych-content] is found: without one
    the page stays as it is. Either way the one save-all call is
    dispatched. *)
Theorem on_finish_notice_needs_content data w :
  document (on_finish data w)
  = match querySelector_content (document w) with
    | Some _ => EnginePage (Some "<p> Please wait, your data are being saved.</p>")
    | None => document w
    end
  /\ adapter_calls (on_finish data w)
     = adapter_calls w ++ [saveTrialDataComplete (DataCollection.values data)]
  /\ length (save_all_calls (on_finish data w))
     = S (length (save_all_calls w)).
Proof.
  repeat split.
  unfold save_all_calls. rewrite on_finish_calls, List.filter_app, length_app.
  simpl. lia.
Qed.

(** *** The two ends of the final save *)

Lemma exitMessage_has_code env :
  exists pre post : string,
    exitMessage env = (pre ++ prolificCC env ++ post)%string.
Proof.
  exists ("<p class=" ++ dquote ++ "text-center align-middle" ++ dquote ++ ">
Please wait. You will be redirected back to Prolific in a few moments.
<br /><br />
If not, please use the following completion code to ensure compensation for this study: ")%string.
  exists ("
" ++ debuggingText env ++ "
</p>")%string.
  reflexivity.
Qed.

(** C3, refuted as stated. In debug mode the failure of the final save does
    not take the way out its success takes. After one fixation unit and
    the end of the timeline, the rejection replaces the body by the exit
    notice and sets the redirect; the fulfilment writes the notice into the
    [jspsych-content] element and sets the display of the data, with no
    redirect. *)
Lemma final_save_failure_leaves_debug_path :
  let w :=
    run env_debug [unit_completed fixation_trial; timeline_finished]
      (start env_debug (EnginePage (Some "+"))) in
  pending 0 w = Some (saveTrialDataComplete [fixation_trial])
  /\ user_visible (step env_debug (settle 0 (rejected "unavailable")) w)
     = (BodyMarkup (exitMessage env_debug),
        [(3000, location_replace (prolificCUrl env_debug))], 0%nat)
  /\ user_visible (step env_debug (settle 0 fulfilled) w)
     = (EnginePage (Some (exitMessage env_debug)), [(3000, displayData)], 0%nat)
  /\ user_visible (step env_debug (settle 0 (rejected "unavailable")) w)
     <> user_visible (step env_debug (settle 0 fulfilled) w).
Proof.
  cbn zeta.
  set (w := run env_debug [unit_completed fixation_trial; timeline_finished]
              (start env_debug (EnginePage (Some "+")))).
  assert (pending 0 w = Some (saveTrialDataComplete [fixation_trial])) as Hp
    by (vm_compute; reflexivity).
  split; [exact Hp|].
  rewrite !step_settle, Hp. cbn [run_then].
  split; [reflexivity|]. split; [reflexivity|].
  intros H. discriminate H.
Qed.

(** C3, as the code has it. When the promise of the save-all call rejects,
    the error is printed on the console, the body of the page becomes the
    exit notice, which holds the completion code, and the redirect to the
    completion URL is set to fire after 3000 ms. This is [exitExperiment],
    the routine the success callback runs with the debug flag off: what
    the participant sees is then the same on failure as on success. *)
Theorem final_save_failure_still_exits env i error records w :
  pending i w = Some (saveTrialDataComplete records) ->
  let w' := step env (settle i (rejected error)) w in
  console w' = console w ++ [console_error error]
  /\ document w' = BodyMarkup (exitMessage env)
  /\ (exists pre post : string,
        exitMessage env = (pre ++ prolificCC env ++ post)%string)
  /\ timers w' = timers w ++ [(3000, location_replace (prolificCUrl env))]
  /\ user_visible w' = user_visible (exitExperiment env w)
  /\ (debugging env = false ->
      user_visible w' = user_visible (step env (settle i fulfilled) w)).
Proof.
  intros Hp. cbn zeta. rewrite !step_settle, Hp. cbn [run_then].
  repeat split.
  - apply exitMessage_has_code.
  - intros Hd. unfold complete_fulfilled, debug. rewrite Hd. reflexivity.
Qed.

Lemma final_save_failure_witness :
  document (step env_live (settle 3 (rejected "unavailable")) (finishing env_live))
  = BodyMarkup (exitMessage env_live)
  /\ timers (step env_live (settle 3 (rejected "unavailable")) (finishing env_live))
     = [(3000, location_replace (prolificCUrl env_live))]
  /\ user_visible (step env_live (settle 3 (rejected "unavailable")) (finishing env_live))
     = user_visible (step env_live (settle 3 fulfilled) (finishing env_live)).
Proof.
  destruct (final_save_failure_still_exits env_live 3 "unavailable" three_trials
              (finishing env_live)) as (_ & Hdoc & _ & Htimers & _ & Hsame).
  - vm_compute. reflexivity.
  - split; [exact Hdoc|]. split; [exact Htimers|]. apply Hsame. reflexivity.
Defined.

(** C4, refuted as stated. In debug mode the two outcomes of the final save
    part ways on the page itself: after a success the exit notice is
    written into the [jspsych-content] element and the collected data are
    set to be displayed; after a failure the body is replaced and the
    redirect is set. *)
Lemma final_save_outcome_shows_in_debug :
  pending 3 (finishing env_debug) = Some (saveTrialDataComplete three_trials)
  /\ user_visible (step env_debug (settle 3 fulfilled) (finishing env_debug))
     = (EnginePage (Some (exitMessage env_debug)), [(3000, displayData)], 0%nat)
  /\ user_visible (step env_debug (settle 3 (rejected "unavailable")) (finishing env_debug))
     = (BodyMarkup (exitMessage env_debug),
        [(3000, location_replace (prolificCUrl env_debug))], 0%nat)
  /\ user_visible (step env_debug (settle 3 fulfilled) (finishing env_debug))
     <> user_visible (step env_debug (settle 3 (rejected "unavailable")) (finishing env_debug)).
Proof.
  assert (pending 3 (finishing env_debug) = Some (saveTrialDataComplete three_trials))
    as Hp by (vm_compute; reflexivity).
  split; [exact Hp|].
  rewrite !step_settle, Hp. cbn [run_then].
  split; [reflexivity|]. split; [reflexivity|].
  intros H. discriminate H.
Qed.

(** C4, as the code has it. With the debug flag off, the success and the
    failure of the final save leave the participant with the same page, the
    same pending redirect and the same debug panel; the two worlds differ in
    the console alone, by the one error entry. With the debug flag on they
    differ on the page: the success writes the exit notice into
    [jspsych-content], if present, and sets the display of the data; the
    failure replaces the body and sets the redirect. *)
Theorem final_save_outcome_hidden_unless_debug env i error records w :
  pending i w = Some (saveTrialDataComplete records) ->
  let ok := step env (settle i fulfilled) w in
  let ko := step env (settle i (rejected error)) w in
  (debugging env = false ->
     user_visible ok = user_visible ko
     /\ ko = print (console_error error) ok
     /\ console ok = console w)
  /\ (debugging env = true ->
     user_visible ok
     = (set_content_if_present (exitMessage env) (document w),
        timers w ++ [(3000, displayData)], debugPanel_updates w)
     /\ user_visible ko
        = (BodyMarkup (exitMessage env),
           timers w ++ [(3000, location_replace (prolificCUrl env))],
           debugPanel_updates w)).
Proof.
  intros Hp. cbn zeta. rewrite !step_settle, Hp. cbn [run_then].
  unfold complete_fulfilled, debug.
  split; intros Hd; rewrite Hd; repeat split.
Qed.

Lemma final_save_outcome_hidden_witness :
  user_visible (step env_live (settle 3 fulfilled) (finishing env_live))
  = user_visible (step env_live (settle 3 (rejected "unavailable")) (finishing env_live))
  /\ step env_live (settle 3 (rejected "unavailable")) (finishing env_live)
     = print (console_error "unavailable")
         (step env_live (settle 3 fulfilled) (finishing env_live))
  /\ console (step env_live (settle 3 fulfilled) (finishing env_live))
     = console (finishing env_live).
Proof.
  destruct (final_save_outcome_hidden_unless_debug env_live 3 "unavailable"
              three_trials (finishing env_live)) as [Hlive _].
  - vm_compute. reflexivity.
  - apply Hlive. reflexivity.
Defined.

(** *** Two sessions of three trials *)

(** Every save succeeds: three save-one calls, one save-all call with the
    three records, then the exit notice and the redirect. *)
Example session_all_saved :
  let w :=
    run env_live
      (map unit_completed three_trials
       ++ [settle 0 fulfilled; settle 1 fulfilled; settle 2 fulfilled;
           timeline_finished; settle 3 fulfilled])
      (start env_live (EnginePage (Some ""))) in
  save_one_calls w = map saveTrialDataPartial three_trials
  /\ save_all_calls w = [saveTrialDataComplete three_trials]
  /\ console w = []
  /\ user_visible w
     = (BodyMarkup (exitMessage env_live),
        [(3000, location_replace (prolificCUrl env_live))], 0%nat).
Proof. vm_compute. repeat split. Qed.

(** The final save fails: the same calls, the same page and redirect, and
    the error on the console. *)
Example session_final_save_failed :
  let w :=
    run env_live
      (map unit_completed three_trials
       ++ [settle 0 fulfilled; settle 1 fulfilled; settle 2 fulfilled;
           timeline_finished; settle 3 (rejected "unavailable")])
      (start env_live (EnginePage (Some ""))) in
  save_one_calls w = map saveTrialDataPartial three_trials
  /\ save_all_calls w = [saveTrialDataComplete three_trials]
  /\ console w = [console_error "unavailable"]
  /\ user_visible w
     = (BodyMarkup (exitMessage env_live),
        [(3000, location_replace (prolificCUrl env_live))], 0%nat).
Proof. vm_compute. repeat split. Qed.

(** ** The debrief summary *)

Lemma agrees_upto_39 : agrees_upto 39 = true.
Proof. vm_compute. reflexivity. Qed.

Lemma agrees_upto_spec n c t :
  agrees_upto n = true -> (0 < t <= n)%nat -> (c <= t)%nat ->
  agrees c t = true.
Proof.
  unfold agrees_upto. intros H Ht Hc.
  rewrite forallb_forall in H.
  assert (In t (seq 1 n)) as Hin by (apply in_seq; lia).
  apply H in Hin. rewrite forallb_forall in Hin.
  apply Hin, in_seq. lia.
Qed.

Lemma accuracy_of_small c t :
  (0 < t < 40)%nat -> (c <= t)%nat ->
  to_Z (accuracy_of c t) = Some (rounded_percentage c t).
Proof.
  intros Ht Hc.
  assert (agrees c t = true) as H
    by (apply (agrees_upto_spec 39); [exact agrees_upto_39|lia|exact Hc]).
  unfold agrees in H.
  destruct (to_Z (accuracy_of c t)) as [z|]; [|discriminate H].
  f_equal. apply Z.eqb_eq. exact H.
Qed.

Lemma filter_length_le {A} (f : A -> bool) (l : list A) :
  (length (List.filter f l) <= length l)%nat.
Proof.
  induction l as [|x l IH]; simpl; [lia|]. destruct (f x); simpl; lia.
Qed.

Lemma debrief_summary_counts data :
  debrief_summary data
  = {| accuracy :=
         accuracy_of (length (correct_response_trials data))
                     (length (response_trials data));
       reaction_time :=
         Math_round
           (ToNumber (DataColumn.mean (omap rt (correct_response_trials data)))) |}.
Proof. reflexivity. Qed.

(** C5, refuted as stated. The debrief variant of the experiment tags no
    trial with a task, so its collected data hold no response-tagged event:
    the quotient is 0/0, nothing special-cases it, and the page reads
    NaN for both figures. *)
Lemma debrief_prints_NaN_on_untagged_data :
  response_trials {| trials := [rdk_record] |} = []
  /\ isNaN (accuracy (debrief_summary {| trials := [rdk_record] |})) = true
  /\ isNaN (reaction_time (debrief_summary {| trials := [rdk_record] |})) = true
  /\ debrief_stimulus {| trials := [rdk_record] |}
     = Some (debrief_html "NaN" "NaN").
Proof. vm_compute. repeat split. Qed.

(** C5, as the code has it. On a collection without response-tagged events
    the summary raises no error, for the division of two numbers yields a
    number; it is not special-cased either: the accuracy and the reaction
    time are both NaN, and so the page prints them. *)
Theorem debrief_without_responses data :
  response_trials data = [] ->
  debrief_summary data = {| accuracy := NaN; reaction_time := NaN |}
  /\ debrief_stimulus data = Some (debrief_html "NaN" "NaN").
Proof.
  intros H. unfold debrief_stimulus. rewrite debrief_summary_counts.
  unfold correct_response_trials. rewrite H. split; reflexivity.
Qed.

Lemma debrief_without_responses_witness :
  debrief_summary {| trials := [fixation_trial; rdk_record; fixation_trial] |}
  = {| accuracy := NaN; reaction_time := NaN |}
  /\ debrief_stimulus {| trials := [fixation_trial; rdk_record; fixation_trial] |}
     = Some (debrief_html "NaN" "NaN").
Proof.
  apply (debrief_without_responses
           {| trials := [fixation_trial; rdk_record; fixation_trial] |}).
  reflexivity.
Defined.

(** C6, refuted as stated. With 23 correct trials out of 40, 100 * 23 / 40
    is 57.5, which rounds to 58, be it computed exactly or in binary64 in
    that order. The code divides first: 23 / 40 is stored as
    0.57499999999999995559..., its product with 100 as
    57.49999999999999289..., and the accuracy reported is 57. *)
Lemma debrief_accuracy_divides_first :
  length (response_trials {| trials := forty_trials |}) = 40%nat
  /\ length (correct_response_trials {| trials := forty_trials |}) = 23%nat
  /\ accuracy (debrief_summary {| trials := forty_trials |}) = of_Z 57
  /\ rounded_percentage 23 40 = 58
  /\ Math_round (div (mul (of_Z 100) (of_nat 23)) (of_nat 40)) = of_Z 58
  /\ debrief_stimulus {| trials := forty_trials |}
     = Some (debrief_html "57" "500").
Proof. vm_compute. repeat split. Qed.

(** C6, as the code has it. The summary keeps the response-tagged trials;
    with [c] of them correct out of [t], the accuracy is the rounding of
    [(c / t) * 100], quotient first, in binary64 arithmetic, and the
    reaction time is the rounding of the mean of [rt] over the correct ones.
    Below forty response trials that accuracy is the rounded percentage
    100 * c / t, ties going up. On the three trials (correct, 500 ms),
    (wrong, 700 ms), (correct, 300 ms) the summary is 67 and 400. *)
Theorem debrief_summary_formula data :
  let c := length (correct_response_trials data) in
  let t := length (response_trials data) in
  accuracy (debrief_summary data)
  = Math_round (mul (div (of_nat c) (of_nat t)) (of_Z 100))
  /\ reaction_time (debrief_summary data)
     = Math_round
         (ToNumber (DataColumn.mean (omap rt (correct_response_trials data))))
  /\ ((0 < t < 40)%nat ->
      to_Z (accuracy (debrief_summary data))
      = Some (round_quotient (100 * Z.of_nat c) (Z.of_nat t)))
  /\ debrief_summary {| trials := three_trials |}
     = {| accuracy := of_Z 67; reaction_time := of_Z 400 |}
  /\ debrief_stimulus {| trials := three_trials |}
     = Some (debrief_html "67" "400").
Proof.
  cbn zeta. rewrite debrief_summary_counts. cbn [accuracy reaction_time].
  split; [reflexivity|]. split; [reflexivity|]. split.
  - intros Ht. apply accuracy_of_small; [assumption|].
    apply filter_length_le.
  - split; vm_compute; reflexivity.
Qed.

Lemma debrief_summary_formula_witness :
  to_Z (accuracy (debrief_summary {| trials := fixation_trial :: three_trials |}))
  = Some 67.
Proof.
  destruct (debrief_summary_formula {| trials := fixation_trial :: three_trials |})
    as (_ & _ & H & _).
  apply H. vm_compute. lia.
Defined.

(** C9. The debrief text is a function of the collected data alone: two
    worlds that hold the same data, whatever else differs between them (the
    page, the console, the promises settled), get the same accuracy, the
    same reaction time and the same text; and so does one world asked
    twice. *)
Theorem debrief_deterministic w1 w2 :
  jsPsych_data w1 = jsPsych_data w2 ->
  accuracy (debrief_summary (jsPsych_data_get w1))
  = accuracy (debrief_summary (jsPsych_data_get w2))
  /\ reaction_time (debrief_summary (jsPsych_data_get w1))
     = reaction_time (debrief_summary (jsPsych_data_get w2))
  /\ debrief_block_stimulus w1 = debrief_block_stimulus w2.
Proof.
  intros H. unfold debrief_block_stimulus, jsPsych_data_get. rewrite H.
  repeat split.
Qed.

Lemma debrief_deterministic_witness :
  debrief_block_stimulus (step env_live (settle 3 fulfilled) (finishing env_live))
  = debrief_block_stimulus (after_three env_debug).
Proof.
  apply (debrief_deterministic
           (step env_live (settle 3 fulfilled) (finishing env_live))
           (after_three env_debug)).
  vm_compute. reflexivity.
Defined.

(** ** Whole sessions *)

Lemma step_save_one env ev w :
  save_one_calls (step env ev w)
  = save_one_calls w ++
    match ev with
    | unit_completed t => if flagged t then [saveTrialDataPartial t] else []
    | _ => []
    end.
Proof.
  unfold save_one_calls. destruct ev as [t| |i o].
  - cbn [step]. unfold seq_action. rewrite on_data_update_calls.
    rewrite List.filter_app. unfold flagged. destruct (truthy _); reflexivity.
  - cbn [step]. rewrite on_finish_calls, List.filter_app, app_nil_r.
    cbn. rewrite app_nil_r. reflexivity.
  - rewrite settle_calls, app_nil_r. reflexivity.
Qed.

Lemma run_save_one env evs : forall w,
  save_one_calls (run env evs w)
  = save_one_calls w
    ++ map saveTrialDataPartial (List.filter flagged (units_completed evs)).
Proof.
  induction evs as [|ev evs IH]; intros w; cbn [run fold_left].
  - cbn. rewrite app_nil_r. reflexivity.
  - fold (run env evs (step env ev w)). rewrite IH, step_save_one.
    rewrite <- app_assoc. f_equal.
    destruct ev as [t| |i o]; cbn; try reflexivity.
    destruct (flagged t); reflexivity.
Qed.

(** X1. Over a whole session the adapter receives one save-one call for
    each unit whose record is flagged, in the order of the units, whatever
    the promises do in between and whether or not the timeline finishes. *)
Theorem session_save_one_calls env evs w :
  save_one_calls (run env evs w)
  = save_one_calls w
    ++ map saveTrialDataPartial (List.filter flagged (units_completed evs)).
Proof. apply run_save_one. Qed.

Lemma start_calls env page : adapter_calls (start env page) = [].
Proof. unfold start, when. destruct (debug env); reflexivity. Qed.

Lemma start_data env page : jsPsych_data (start env page) = [].
Proof. unfold start, when. destruct (debug env); reflexivity. Qed.

Lemma start_timers env page : timers (start env page) = [].
Proof. unfold start, when. destruct (debug env); reflexivity. Qed.

Lemma start_document env page : document (start env page) = page.
Proof. unfold start, when. destruct (debug env); reflexivity. Qed.

Lemma start_settled env page : settled (start env page) = ∅.
Proof. unfold start, when. destruct (debug env); reflexivity. Qed.

Lemma partial_call_is_save_one r w :
  saveTrialDataPartial r ∈ adapter_calls w ->
  saveTrialDataPartial r ∈ save_one_calls w.
Proof.
  unfold save_one_calls. rewrite !list_elem_of_In, filter_In. intros H.
  split; [exact H|reflexivity].
Qed.

(** X2. When the timeline finishes, the last call the adapter has received
    is the save-all call, and its records hold every record that was sent
    before by a save-one call: the final save repeats all the incremental
    ones. *)
Theorem final_save_covers_incremental env page evs :
  let w := run env (evs ++ [timeline_finished]) (start env page) in
  exists records,
    last (adapter_calls w) = Some (saveTrialDataComplete records)
    /\ records = units_completed evs
    /\ Forall (fun c => match c with
                        | saveTrialDataPartial r => r ∈ records
                        | saveTrialDataComplete _ => True
                        end) (adapter_calls w).
Proof.
  cbn zeta. exists (units_completed evs).
  rewrite run_app. cbn [run fold_left step].
  fold (run env evs (start env page)).
  set (w1 := run env evs (start env page)).
  rewrite on_finish_calls. unfold DataCollection.values. cbn [trials].
  assert (jsPsych_data w1 = units_completed evs) as Hdata
    by (unfold w1; rewrite run_data, start_data; reflexivity).
  rewrite Hdata. split; [apply last_snoc|]. split; [reflexivity|].
  apply Forall_app. split; [|repeat constructor].
  apply Forall_forall. intros [r|rs] Hin; [|exact I].
  apply partial_call_is_save_one in Hin. unfold w1 in Hin.
  rewrite run_save_one in Hin.
  unfold save_one_calls in Hin. rewrite start_calls in Hin. cbn in Hin.
  apply list_elem_of_fmap in Hin as (r' & Heq & Hin). injection Heq as ->.
  apply list_elem_of_In, filter_In in Hin as [Hin _].
  apply list_elem_of_In. exact Hin.
Qed.

(** *** What a session prints and shows *)

Lemma step_console_live env ev w :
  debugging env = false ->
  exists errs,
    console (step env ev w) = console w ++ map console_error errs
    /\ errs `sublist_of` rejections [ev].
Proof.
  intros Hd. destruct ev as [t| |i o].
  - exists []. split; [|constructor].
    unfold_handlers. rewrite Hd. destruct (truthy _); fields;
      rewrite app_nil_r; reflexivity.
  - exists []. split; [|constructor]. cbn. rewrite app_nil_r. reflexivity.
  - rewrite step_settle. destruct (pending i w) as [c|].
    + destruct c, o as [|e]; unfold_handlers; rewrite ?Hd; fields.
      * exists []. split; [rewrite app_nil_r; reflexivity|constructor].
      * exists [e]. split; [reflexivity|reflexivity].
      * exists []. split; [rewrite app_nil_r; reflexivity|constructor].
      * exists [e]. split; [reflexivity|reflexivity].
    + exists []. split; [rewrite app_nil_r; reflexivity|].
      apply sublist_nil_l.
Qed.

Lemma rejections_cons ev evs :
  rejections (ev :: evs) = rejections [ev] ++ rejections evs.
Proof. unfold rejections. cbn. destruct ev as [| |i [|e]]; reflexivity. Qed.

Lemma run_console_live env evs : forall w,
  debugging env = false ->
  exists errs,
    console (run env evs w) = console w ++ map console_error errs
    /\ errs `sublist_of` rejections evs.
Proof.
  induction evs as [|ev evs IH]; intros w Hd; cbn [run fold_left].
  - exists []. split; [rewrite app_nil_r; reflexivity|constructor].
  - fold (run env evs (step env ev w)).
    destruct (IH (step env ev w) Hd) as (errs2 & Hc2 & Hs2).
    destruct (step_console_live env ev w Hd) as (errs1 & Hc1 & Hs1).
    exists (errs1 ++ errs2). split.
    + rewrite Hc2, Hc1, map_app, app_assoc. reflexivity.
    + rewrite rejections_cons. apply sublist_app; assumption.
Qed.

(** X3. With the debug flag off the experiment prints nothing but errors:
    after any session the console holds [console.error] entries only, each
    the reason of a rejection that occurred, in the order they occurred. A
    session in which no promise rejects thus leaves the console empty. *)
Theorem live_console_holds_errors_only env page evs :
  debugging env = false ->
  exists errs,
    console (run env evs (start env page)) = map console_error errs
    /\ errs `sublist_of` rejections evs.
Proof.
  intros Hd. destruct (run_console_live env evs (start env page) Hd)
    as (errs & Hc & Hs).
  assert (console (start env page) = []) as H0
    by (unfold start, when, debug; rewrite Hd; reflexivity).
  rewrite H0 in Hc. cbn in Hc. exists errs. split; assumption.
Qed.

Lemma live_console_witness :
  exists errs,
    console
      (run env_live
         (map unit_completed three_trials
          ++ [settle 1 (rejected "unavailable"); settle 0 fulfilled;
              timeline_finished; settle 3 fulfilled])
         (start env_live (EnginePage (Some ""))))
    = map console_error errs
    /\ errs `sublist_of` ["unavailable"].
Proof.
  apply (live_console_holds_errors_only env_live (EnginePage (Some ""))
           (map unit_completed three_trials
            ++ [settle 1 (rejected "unavailable"); settle 0 fulfilled;
                timeline_finished; settle 3 fulfilled])).
  reflexivity.
Defined.

Lemma no_save_all_pending i c w :
  save_all_calls w = [] -> pending i w = Some c -> is_partial c = true.
Proof.
  unfold pending, save_all_calls. intros Hnone Hp.
  destruct (decide (i ∈ settled w)); [discriminate Hp|].
  apply list_elem_of_lookup_2 in Hp.
  destruct c as [r|rs]; [reflexivity|].
  assert (saveTrialDataComplete rs
            ∈ List.filter (fun c => negb (is_partial c)) (adapter_calls w)) as Hin
    by (apply list_elem_of_In, filter_In; split;
        [apply list_elem_of_In; exact Hp|reflexivity]).
  rewrite Hnone in Hin. apply elem_of_nil in Hin. contradiction.
Qed.

Lemma step_before_finish env ev w :
  save_all_calls w = [] -> is_finish ev = false ->
  document (step env ev w) = document w /\ timers (step env ev w) = timers w.
Proof.
  intros Hnone Hev. destruct ev as [t| |i o]; [|discriminate Hev|].
  - unfold_handlers. destruct (debugging env), (truthy _); split; reflexivity.
  - rewrite step_settle. destruct (pending i w) as [c|] eqn:Hp;
      [|split; reflexivity].
    apply (no_save_all_pending i c w Hnone) in Hp.
    destruct c as [r|rs]; [|discriminate Hp].
    destruct o; by_flags env; split; reflexivity.
Qed.

Lemma run_before_finish env evs : forall w,
  save_all_calls w = [] -> no_finish evs = true ->
  document (run env evs w) = document w /\ timers (run env evs w) = timers w.
Proof.
  induction evs as [|ev evs IH]; intros w Hnone Hevs; [split; reflexivity|].
  unfold no_finish in Hevs. cbn [forallb] in Hevs.
  apply andb_prop in Hevs as [Hev Hevs]. apply negb_true_iff in Hev.
  cbn [run fold_left]. fold (run env evs (step env ev w)).
  destruct (step_before_finish env ev w Hnone Hev) as [Hd Ht].
  destruct (IH (step env ev w)) as [Hd' Ht'].
  - rewrite step_save_all; [exact Hnone|]. intros ->. discriminate Hev.
  - exact Hevs.
  - split; congruence.
Qed.

(** X4. As long as the timeline has not finished, nothing this code does
    reaches the participant: whatever units complete and however the
    save-one promises settle, the page is the one the engine shows and no
    timer is set. *)
Theorem page_untouched_before_finish env evs w :
  save_all_calls w = [] -> no_finish evs = true ->
  document (run env evs w) = document w /\ timers (run env evs w) = timers w.
Proof. apply run_before_finish. Qed.

Lemma page_untouched_witness :
  document
    (run env_debug
       (map unit_completed three_trials
        ++ [settle 1 (rejected "unavailable"); settle 0 fulfilled; settle 2 fulfilled])
       (start env_debug (EnginePage (Some "trial"))))
  = document (start env_debug (EnginePage (Some "trial")))
  /\ timers
       (run env_debug
          (map unit_completed three_trials
           ++ [settle 1 (rejected "unavailable"); settle 0 fulfilled; settle 2 fulfilled])
          (start env_debug (EnginePage (Some "trial"))))
     = timers (start env_debug (EnginePage (Some "trial"))).
Proof.
  apply (page_untouched_before_finish env_debug
           (map unit_completed three_trials
            ++ [settle 1 (rejected "unavailable"); settle 0 fulfilled; settle 2 fulfilled])
           (start env_debug (EnginePage (Some "trial")))); reflexivity.
Defined.

Lemma step_timers_live env ev w :
  debugging env = false ->
  timers (step env ev w) = timers w
  \/ timers (step env ev w) = timers w ++ [redirect env].
Proof.
  intros Hd. destruct ev as [t| |i o].
  - left. unfold_handlers. rewrite Hd. destruct (truthy _); reflexivity.
  - left. reflexivity.
  - rewrite step_settle. destruct (pending i w) as [[r|rs]|]; [| |left; reflexivity].
    + left. destruct o; unfold_handlers; rewrite ?Hd; reflexivity.
    + right. destruct o; unfold_handlers; rewrite ?Hd; reflexivity.
Qed.

(** X5. With the debug flag off, every timer a session ever sets is the
    redirect to the completion URL after 3000 ms: the display of the
    collected data is never scheduled for a participant, and no other
    address is ever the target. *)
Theorem live_timers_are_redirects env page evs :
  debugging env = false ->
  Forall (fun t => t = redirect env) (timers (run env evs (start env page))).
Proof.
  intros Hd.
  assert (forall w, Forall (fun t => t = redirect env) (timers w) ->
                    Forall (fun t => t = redirect env) (timers (run env evs w)))
    as Hrun.
  { induction evs as [|ev evs IH]; intros w Hw; [exact Hw|].
    cbn [run fold_left]. fold (run env evs (step env ev w)). apply IH.
    destruct (step_timers_live env ev w Hd) as [-> | ->]; [exact Hw|].
    apply Forall_app. split; [exact Hw|]. repeat constructor. }
  apply Hrun. rewrite start_timers. constructor.
Qed.

Lemma live_timers_witness :
  Forall (fun t => t = redirect env_live)
    (timers
       (run env_live
          (map unit_completed three_trials
           ++ [timeline_finished; settle 3 (rejected "unavailable")])
          (start env_live (EnginePage (Some ""))))).
Proof.
  apply (live_timers_are_redirects env_live (EnginePage (Some ""))
           (map unit_completed three_trials
            ++ [timeline_finished; settle 3 (rejected "unavailable")])).
  reflexivity.
Defined.

Lemma step_debug_no_rejection env ev w :
  debugging env = true -> rejections [ev] = [] ->
  (timers (step env ev w) = timers w
   \/ timers (step env ev w) = timers w ++ [(3000, displayData)])
  /\ (forall c, document w = EnginePage c ->
      exists c', document (step env ev w) = EnginePage c').
Proof.
  intros Hd Hev. destruct ev as [t| |i o].
  - split; [left|intros c Hc; exists c];
      unfold_handlers; rewrite Hd; destruct (truthy _); fields; auto.
  - split; [left; reflexivity|]. intros c Hc. cbn. rewrite Hc.
    destruct c; eexists; reflexivity.
  - destruct o as [|e]; [|discriminate Hev].
    rewrite step_settle. destruct (pending i w) as [[r|rs]|].
    + split; [left|intros c Hc; exists c];
        by_flags env; try discriminate Hd; auto.
    + split; [right|intros c Hc];
        unfold_handlers; rewrite Hd; fields; [reflexivity|].
      rewrite Hc. destruct c; eexists; reflexivity.
    + split; [left; reflexivity|]. intros c Hc. exists c. exact Hc.
Qed.

(** X6. With the debug flag on, a session in which no promise rejects
    never leaves the engine's page: the body is not replaced, no redirect
    is set, and the only timer such a session can set is the display of the
    collected data after 3000 ms. *)
Theorem debug_session_stays_on_page env c evs :
  debugging env = true -> rejections evs = [] ->
  Forall (fun t => t = (3000, displayData))
         (timers (run env evs (start env (EnginePage c))))
  /\ exists c', document (run env evs (start env (EnginePage c))) = EnginePage c'.
Proof.
  intros Hd.
  assert (forall w c0, rejections evs = [] ->
            Forall (fun t => t = (3000, displayData)) (timers w) ->
            document w = EnginePage c0 ->
            Forall (fun t => t = (3000, displayData)) (timers (run env evs w))
            /\ exists c', document (run env evs w) = EnginePage c') as Hrun.
  { induction evs as [|ev evs IH]; intros w c0 Hevs Ht Hdoc.
    - split; [exact Ht|exists c0; exact Hdoc].
    - rewrite rejections_cons in Hevs. apply app_eq_nil in Hevs as [Hev Hevs].
      cbn [run fold_left]. fold (run env evs (step env ev w)).
      destruct (step_debug_no_rejection env ev w Hd Hev) as [Htim Hpage].
      destruct (Hpage c0 Hdoc) as [c1 Hdoc1].
      apply (IH _ c1 Hevs); [|exact Hdoc1].
      destruct Htim as [-> | ->]; [exact Ht|].
      apply Forall_app. split; [exact Ht|]. repeat constructor. }
  intros Hevs. apply (Hrun _ c Hevs).
  - rewrite start_timers. constructor.
  - apply start_document.
Qed.

Lemma debug_session_witness :
  Forall (fun t => t = (3000, displayData))
    (timers
       (run env_debug
          (map unit_completed three_trials
           ++ [settle 0 fulfilled; timeline_finished; settle 3 fulfilled])
          (start env_debug (EnginePage (Some "")))))
  /\ exists c',
       document
         (run env_debug
            (map unit_completed three_trials
             ++ [settle 0 fulfilled; timeline_finished; settle 3 fulfilled])
            (start env_debug (EnginePage (Some ""))))
       = EnginePage c'.
Proof.
  apply (debug_session_stays_on_page env_debug (Some "")
           (map unit_completed three_trials
            ++ [settle 0 fulfilled; timeline_finished; settle 3 fulfilled]));
    reflexivity.
Defined.

(** *** One way out *)

Lemma step_calls_grow env ev w :
  is_finish ev = false ->
  adapter_calls (step env ev w) = adapter_calls w
  \/ exists r, adapter_calls (step env ev w)
               = adapter_calls w ++ [saveTrialDataPartial r].
Proof.
  intros Hev. destruct ev as [t| |i o]; [|discriminate Hev|].
  - cbn [step]. unfold seq_action. rewrite on_data_update_calls.
    destruct (truthy _); [right; exists t; reflexivity|left].
    rewrite app_nil_r. reflexivity.
  - left. apply settle_calls.
Qed.

Lemma only_save_all_at_step env k ev w :
  is_finish ev = false ->
  only_save_all_at k w -> only_save_all_at k (step env ev w).
Proof.
  intros Hev [[rs Hk] Hothers]. unfold only_save_all_at.
  destruct (step_calls_grow env ev w Hev) as [-> | [r ->]];
    [split; [exists rs; exact Hk|exact Hothers]|].
  split.
  - exists rs. apply lookup_app_l_Some. exact Hk.
  - intros j c Hj Hc. apply lookup_app_Some in Hc as [Hc|[_ Hc]].
    + apply (Hothers j c Hj Hc).
    + apply list_lookup_singleton_Some in Hc as [_ <-]. reflexivity.
Qed.

Lemma step_settled_in_range env ev w :
  settled_in_range w -> settled_in_range (step env ev w).
Proof.
  intros Hw. destruct ev as [t| |i o].
  - intros j Hj. cbn [step] in Hj |- *. unfold seq_action in Hj |- *.
    rewrite on_data_update_settled in Hj.
    rewrite on_data_update_calls, length_app.
    apply Hw in Hj. cbn in Hj |- *. lia.
  - intros j Hj. cbn [step] in *. rewrite on_finish_calls, length_app.
    apply Hw in Hj. lia.
  - intros j Hj. rewrite settle_calls. rewrite step_settle in Hj.
    unfold pending in Hj.
    destruct (decide (i ∈ settled w)); [apply Hw; exact Hj|].
    destruct (adapter_calls w !! i) as [c|] eqn:Hc; [|apply Hw; exact Hj].
    rewrite run_then_settled in Hj. unfold mark_settled in Hj. cbn in Hj.
    apply elem_of_union in Hj as [Hj|Hj]; [|apply Hw; exact Hj].
    apply elem_of_singleton in Hj as ->.
    apply lookup_lt_Some in Hc. exact Hc.
Qed.

Lemma run_settled_in_range env evs : forall w,
  settled_in_range w -> settled_in_range (run env evs w).
Proof.
  induction evs as [|ev evs IH]; intros w Hw; [exact Hw|].
  cbn [run fold_left]. apply IH, step_settled_in_range, Hw.
Qed.

Lemma step_other_than env k ev w :
  is_finish ev = false -> settles k ev = false -> only_save_all_at k w ->
  timers (step env ev w) = timers w
  /\ document (step env ev w) = document w
  /\ (k ∈ settled (step env ev w) <-> k ∈ settled w).
Proof.
  intros Hfin Hev [_ Hothers]. destruct ev as [t| |j o]; [|discriminate Hfin|].
  - unfold_handlers. destruct (debugging env), (truthy _); fields; tauto.
  - cbn in Hev. apply Nat.eqb_neq in Hev.
    rewrite step_settle. unfold pending.
    destruct (decide (j ∈ settled w)); [tauto|].
    destruct (adapter_calls w !! j) as [c|] eqn:Hc; [|tauto].
    apply (Hothers j c Hev) in Hc. destruct c as [r|rs]; [|discriminate Hc].
    rewrite run_then_settled.
    destruct o; by_flags env; (split; [reflexivity|split; [reflexivity|]]);
      rewrite elem_of_union, elem_of_singleton; intuition congruence.
Qed.

Lemma step_save_all_settles env k o w :
  only_save_all_at k w -> k ∉ settled w -> timers w = [] ->
  length (timers (step env (settle k o) w)) = 1%nat
  /\ k ∈ settled (step env (settle k o) w).
Proof.
  intros [[rs Hk] _] Hnot Ht. rewrite step_settle. unfold pending.
  destruct (decide (k ∈ settled w)); [contradiction|]. rewrite Hk.
  rewrite run_then_settled.
  split; [|unfold mark_settled; cbn; set_solver].
  destruct o; by_flags env; rewrite Ht; reflexivity.
Qed.

Lemma run_after_exit env k evs : forall w,
  no_finish evs = true -> only_save_all_at k w -> k ∈ settled w ->
  timers (run env evs w) = timers w.
Proof.
  induction evs as [|ev evs IH]; intros w Hevs Hinv Hk; [reflexivity|].
  unfold no_finish in Hevs. cbn [forallb] in Hevs.
  apply andb_prop in Hevs as [Hev Hevs]. apply negb_true_iff in Hev.
  cbn [run fold_left]. fold (run env evs (step env ev w)).
  destruct (settles k ev) eqn:Hs.
  - destruct ev as [t| |j o]; try discriminate Hs.
    cbn in Hs. apply Nat.eqb_eq in Hs as ->.
    assert (step env (settle k o) w = w) as ->.
    { cbn [step]. destruct (decide (k ∈ settled w)); [reflexivity|contradiction]. }
    apply IH; assumption.
  - destruct (step_other_than env k ev w Hev Hs Hinv) as (Ht & _ & Hset).
    rewrite IH; [exact Ht|exact Hevs| |apply Hset; exact Hk].
    apply only_save_all_at_step; assumption.
Qed.

Lemma run_until_exit env k evs : forall w,
  no_finish evs = true -> only_save_all_at k w -> k ∉ settled w ->
  timers w = [] ->
  if existsb (settles k) evs
  then length (timers (run env evs w)) = 1%nat
  else timers (run env evs w) = [] /\ document (run env evs w) = document w.
Proof.
  induction evs as [|ev evs IH]; intros w Hevs Hinv Hk Ht;
    [split; [exact Ht|reflexivity]|].
  pose proof Hevs as Hall.
  unfold no_finish in Hevs. cbn [forallb] in Hevs.
  apply andb_prop in Hevs as [Hev Hevs]. apply negb_true_iff in Hev.
  cbn [run fold_left existsb]. fold (run env evs (step env ev w)).
  destruct (settles k ev) eqn:Hs; cbn [orb].
  - destruct ev as [t| |j o]; try discriminate Hs.
    cbn in Hs. apply Nat.eqb_eq in Hs as ->.
    destruct (step_save_all_settles env k o w Hinv Hk Ht) as [Hlen Hin].
    rewrite (run_after_exit env k evs); [exact Hlen|exact Hevs| |exact Hin].
    apply only_save_all_at_step; [reflexivity|exact Hinv].
  - destruct (step_other_than env k ev w Hev Hs Hinv) as (Ht' & Hd' & Hset).
    specialize (IH (step env ev w) Hevs).
    rewrite Hd' in IH. apply IH.
    + apply only_save_all_at_step; assumption.
    + rewrite Hset. exact Hk.
    + rewrite Ht'. exact Ht.
Qed.

Lemma all_calls_save_one w :
  save_all_calls w = [] -> adapter_calls w = save_one_calls w.
Proof.
  unfold save_all_calls, save_one_calls.
  induction (adapter_calls w) as [|c l IH]; [reflexivity|].
  cbn. destruct c as [r|rs]; cbn; [|discriminate].
  intros H. f_equal. apply IH, H.
Qed.

(** X7. A session has one way out. Once the timeline has finished, and for
    as long as the promise of the save-all call is not settled, no timer is
    set and the page stays the one [on_finish] left, the notice that the
    data are being saved; nothing else ends the wait. Once that promise has
    settled exactly one timer is pending, and no later event (a late
    save-one outcome, the same promise reported again) adds a second. *)
Theorem session_exits_once env page evs1 evs2 :
  no_finish evs1 = true -> no_finish evs2 = true ->
  let k := length (List.filter flagged (units_completed evs1)) in
  let w := run env (evs1 ++ timeline_finished :: evs2) (start env page) in
  if existsb (settles k) evs2
  then length (timers w) = 1%nat
  else timers w = [] /\ document w = saving_page page.
Proof.
  intros H1 H2. cbn zeta.
  rewrite run_app. cbn [run fold_left].
  fold (run env evs1 (start env page)).
  set (w1 := run env evs1 (start env page)).
  fold (run env evs2 (step env timeline_finished w1)).
  assert (save_all_calls w1 = []) as Hnone.
  { unfold w1. rewrite run_save_all by exact H1.
    unfold save_all_calls. rewrite start_calls. reflexivity. }
  assert (length (adapter_calls w1)
          = length (List.filter flagged (units_completed evs1))) as Hlen.
  { rewrite (all_calls_save_one w1 Hnone). unfold w1.
    rewrite run_save_one. unfold save_one_calls.
    rewrite start_calls. cbn. apply length_map. }
  destruct (run_before_finish env evs1 (start env page)) as [Hd Ht].
  { unfold save_all_calls. rewrite start_calls. reflexivity. }
  { exact H1. }
  fold w1 in Hd, Ht. rewrite start_document in Hd. rewrite start_timers in Ht.
  rewrite <- Hlen.
  set (w2 := step env timeline_finished w1).
  assert (document w2 = saving_page page) as Hd2
    by (unfold w2, saving_page; cbn; rewrite Hd; reflexivity).
  rewrite <- Hd2.
  apply run_until_exit.
  - exact H2.
  - unfold w2. cbn [step]. split.
    + exists (jsPsych_data w1). rewrite on_finish_calls.
      apply list_lookup_middle. reflexivity.
    + intros j c Hj Hc. rewrite on_finish_calls in Hc.
      apply lookup_app_Some in Hc as [Hc|[Hge Hc]].
      * apply list_elem_of_lookup_2 in Hc.
        rewrite (all_calls_save_one w1 Hnone) in Hc.
        unfold save_one_calls in Hc.
        apply list_elem_of_In, filter_In in Hc as [_ Hc]. exact Hc.
      * apply list_lookup_singleton_Some in Hc as [Hz _]. lia.
  - unfold w2. cbn [step]. intros Hin.
    assert (settled_in_range w1) as Hrange.
    { unfold w1. apply run_settled_in_range. intros i Hi.
      rewrite start_settled in Hi. set_solver. }
    apply Hrange in Hin. lia.
  - unfold w2. cbn. exact Ht.
Qed.

Lemma session_exits_once_witness :
  length
    (timers
       (run env_live
          (map unit_completed three_trials
           ++ timeline_finished
              :: [settle 3 (rejected "unavailable"); settle 0 fulfilled;
                  settle 3 fulfilled; settle 3 (rejected "again")])
          (start env_live (EnginePage (Some "")))))
  = 1%nat.
Proof.
  apply (session_exits_once env_live (EnginePage (Some ""))
           (map unit_completed three_trials)
           [settle 3 (rejected "unavailable"); settle 0 fulfilled;
            settle 3 fulfilled; settle 3 (rejected "again")]);
    reflexivity.
Defined.

(** X8. In debug mode, on a page without an element of id
    [jspsych-content], the success of the final save shows nothing:
    [exitExperimentDebugging] finds no element to write to and leaves the
    world as it is, so the page stays what it was. *)
Theorem debug_success_without_content env i records w :
  debugging env = true ->
  pending i w = Some (saveTrialDataComplete records) ->
  querySelector_content (document w) = None ->
  exitExperimentDebugging env w = w
  /\ document (step env (settle i fulfilled) w) = document w.
Proof.
  intros Hd Hp Hq. split.
  - unfold exitExperimentDebugging, set_document, set_content_if_present.
    rewrite Hq. destruct w; reflexivity.
  - rewrite step_settle, Hp. unfold_handlers. rewrite Hd. fields.
    unfold set_content_if_present. rewrite Hq. reflexivity.
Qed.

Lemma debug_success_without_content_witness :
  exitExperimentDebugging env_debug
    (run env_debug [timeline_finished] (start env_debug (EnginePage None)))
  = run env_debug [timeline_finished] (start env_debug (EnginePage None))
  /\ document
       (step env_debug (settle 0 fulfilled)
          (run env_debug [timeline_finished] (start env_debug (EnginePage None))))
     = document
         (run env_debug [timeline_finished] (start env_debug (EnginePage None))).
Proof.
  apply (debug_success_without_content env_debug 0 []
           (run env_debug [timeline_finished] (start env_debug (EnginePage None))));
    reflexivity.
Defined.

(** ** More on the debrief summary *)

Lemma filter_filter_same {A} (f : A -> bool) (l : list A) :
  List.filter f (List.filter f l) = List.filter f l.
Proof.
  induction l as [|x l IH]; [reflexivity|]. cbn.
  destruct (f x) eqn:Hx; [|exact IH]. cbn. rewrite Hx, IH. reflexivity.
Qed.

Lemma filter_Permutation_bool {A} (f : A -> bool) (l1 l2 : list A) :
  l1 ≡ₚ l2 -> List.filter f l1 ≡ₚ List.filter f l2.
Proof.
  induction 1 as [|x l1 l2 _ IH|x y l|l1 l2 l3 _ IH1 _ IH2]; cbn.
  - constructor.
  - destruct (f x); [constructor|]; exact IH.
  - destruct (f x), (f y); try reflexivity. constructor.
  - etransitivity; eassumption.
Qed.

(** X9. The summary looks at the response-tagged trials only: the trials
    tagged otherwise or not at all (fixations, instructions, the preload)
    can be removed from the collection without changing the accuracy, the
    reaction time or the text. *)
Theorem debrief_ignores_other_trials data :
  debrief_summary data = debrief_summary {| trials := response_trials data |}
  /\ debrief_stimulus data
     = debrief_stimulus {| trials := response_trials data |}.
Proof.
  assert (debrief_summary data
          = debrief_summary {| trials := response_trials data |}) as H.
  { rewrite !debrief_summary_counts.
    unfold correct_response_trials, response_trials. cbn [trials].
    rewrite filter_filter_same. reflexivity. }
  split; [exact H|]. unfold debrief_stimulus. rewrite <- H. reflexivity.
Qed.

(** X10. The accuracy does not depend on the order in which the trials were
    run: two collections holding the same records in different orders get
    the same accuracy. *)
Theorem debrief_accuracy_order_free d1 d2 :
  trials d1 ≡ₚ trials d2 ->
  accuracy (debrief_summary d1) = accuracy (debrief_summary d2).
Proof.
  intros H. rewrite !debrief_summary_counts. cbn [accuracy].
  unfold correct_response_trials, response_trials.
  assert (List.filter (DataCollection.task_is task_response) (trials d1)
          ≡ₚ List.filter (DataCollection.task_is task_response) (trials d2))
    as Hr by (apply filter_Permutation_bool; exact H).
  rewrite (Permutation_length Hr).
  rewrite (Permutation_length
             (filter_Permutation_bool (DataCollection.correct_is true) _ _ Hr)).
  reflexivity.
Qed.

Lemma debrief_accuracy_order_free_witness :
  accuracy (debrief_summary {| trials := fixation_trial :: three_trials |})
  = accuracy (debrief_summary {| trials := reverse (fixation_trial :: three_trials) |}).
Proof.
  apply (debrief_accuracy_order_free
           {| trials := fixation_trial :: three_trials |}
           {| trials := reverse (fixation_trial :: three_trials) |}).
  cbn [trials]. symmetry. apply reverse_Permutation.
Defined.

(** X11. When no correct response trial carries a reaction time (all the
    answers were wrong, say) the mean is taken over nothing: the reaction
    time is NaN and the page prints NaNms, next to whatever accuracy it
    prints. *)
Theorem debrief_reaction_time_without_correct data :
  omap rt (correct_response_trials data) = [] ->
  reaction_time (debrief_summary data) = NaN
  /\ debrief_stimulus data
     = (a ← toString (accuracy (debrief_summary data));
        Some (debrief_html a "NaN")).
Proof.
  intros H. unfold debrief_stimulus. rewrite debrief_summary_counts.
  cbn [accuracy reaction_time]. rewrite H. split; reflexivity.
Qed.

Lemma debrief_reaction_time_witness :
  reaction_time (debrief_summary {| trials := wrong_trials |}) = NaN
  /\ debrief_stimulus {| trials := wrong_trials |}
     = Some (debrief_html "0" "NaN").
Proof.
  apply (debrief_reaction_time_without_correct {| trials := wrong_trials |}).
  reflexivity.
Defined.

Lemma accuracy_in_range_100 : accuracy_in_range_upto 100 = true.
Proof. vm_compute. reflexivity. Qed.

Lemma accuracy_in_range_spec n c t :
  accuracy_in_range_upto n = true -> (0 < t <= n)%nat -> (c <= t)%nat ->
  accuracy_in_range c t = true.
Proof.
  unfold accuracy_in_range_upto. intros H Ht Hc.
  rewrite forallb_forall in H.
  assert (In t (seq 1 n)) as Hin by (apply in_seq; lia).
  apply H in Hin. rewrite forallb_forall in Hin.
  apply Hin, in_seq. lia.
Qed.

(** X12. With up to 100 response trials the accuracy is a whole number from
    0 to 100 and prints as such; it is the percentage 100 * c / t rounded
    to the nearest integer, or the integer just below it; it is 100 when
    every response trial is correct and 0 when none is. *)
Theorem debrief_accuracy_in_range data :
  let c := length (correct_response_trials data) in
  let t := length (response_trials data) in
  (0 < t <= 100)%nat ->
  exists z,
    to_Z (accuracy (debrief_summary data)) = Some z
    /\ 0 <= z <= 100
    /\ rounded_percentage c t - 1 <= z <= rounded_percentage c t
    /\ (c = t -> z = 100)
    /\ (c = 0%nat -> z = 0)
    /\ toString (accuracy (debrief_summary data))
       = Some (DecimalString.NilZero.string_of_int (Z.to_int z)).
Proof.
  cbn zeta. intros Ht. rewrite debrief_summary_counts. cbn [accuracy].
  set (c := length (correct_response_trials data)).
  set (t := length (response_trials data)) in *.
  assert (c <= t)%nat as Hc by apply filter_length_le.
  pose proof (accuracy_in_range_spec 100 c t accuracy_in_range_100 Ht Hc) as H.
  unfold accuracy_in_range in H.
  destruct (to_Z (accuracy_of c t)) as [z|] eqn:Hz; [|discriminate H].
  repeat (apply andb_prop in H as [H ?]).
  exists z. split; [reflexivity|].
  assert (0 <= z <= 100) as Hrange by lia.
  split; [exact Hrange|]. split; [lia|]. split; [|split].
  - intros ->. rewrite Nat.eqb_refl in *. lia.
  - intros ->. cbn in *. lia.
  - assert ((Z.abs z <? 10 ^ 21) = true) as Hsmall by (apply Z.ltb_lt; lia).
    unfold toString.
    destruct (accuracy_of c t) eqn:Ha; try discriminate Hz;
      (rewrite Hz, Hsmall; reflexivity).
Qed.

Lemma debrief_accuracy_in_range_witness :
  exists z,
    to_Z (accuracy (debrief_summary {| trials := forty_trials |})) = Some z
    /\ 0 <= z <= 100
    /\ rounded_percentage 23 40 - 1 <= z <= rounded_percentage 23 40
    /\ (23%nat = 40%nat -> z = 100)
    /\ (23%nat = 0%nat -> z = 0)
    /\ toString (accuracy (debrief_summary {| trials := forty_trials |}))
       = Some (DecimalString.NilZero.string_of_int (Z.to_int z)).
Proof.
  apply (debrief_accuracy_in_range {| trials := forty_trials |}).
  vm_compute. lia.
Defined.

(** ** The timelines *)

(** X13. The duration the fixation trial draws is always one of the eight
    values of its list: whatever the engine's shuffle, the call returns a
    number (never [undefined]), a multiple of 250 ms between 250 and
    2000 ms. *)
Theorem fixation_duration_in_range (shuffle : list Z -> list Z) :
  shuffle Hosting.fixation_durations ≡ₚ Hosting.fixation_durations ->
  exists d,
    Hosting.fixation_trial_duration shuffle = Some d
    /\ d ∈ Hosting.fixation_durations
    /\ 250 <= d <= 2000
    /\ d mod 250 = 0.
Proof.
  intros Hperm. unfold Hosting.fixation_trial_duration, sampleWithoutReplacement.
  destruct (shuffle Hosting.fixation_durations) as [|d l] eqn:Hs.
  - apply Permutation_length in Hperm. discriminate Hperm.
  - exists d. split; [reflexivity|].
    assert (d ∈ Hosting.fixation_durations) as Hin
      by (rewrite <- Hperm; left).
    split; [exact Hin|].
    unfold Hosting.fixation_durations in Hin.
    repeat (apply elem_of_cons in Hin as [-> | Hin]; [split; [lia|reflexivity]|]).
    apply elem_of_nil in Hin. contradiction.
Qed.

Lemma fixation_duration_witness :
  exists d,
    Hosting.fixation_trial_duration reverse = Some d
    /\ d ∈ Hosting.fixation_durations
    /\ 250 <= d <= 2000
    /\ d mod 250 = 0.
Proof.
  apply (fixation_duration_in_range reverse). apply reverse_Permutation.
Defined.





Lemma presents_node_units n o :
  presents_node n o -> Forall (fun d => d ∈ units [n]) o.
Proof.
  intros H. inversion H as [d|tl reps rnd orders Hlen Hall]; subst.
  - cbn. repeat constructor.
  - cbn. rewrite app_nil_r. clear H.
    induction Hall as [|o orders Ho _ IH]; [constructor|].
    cbn [concat]. apply Forall_app. split; [|exact IH].
    apply Forall_forall. intros d Hd.
    destruct rnd; cbn in Ho; [rewrite <- Ho|rewrite <- Ho]; exact Hd.
Qed.

Lemma units_cons n tl : units (n :: tl) = units [n] ++ units tl.
Proof. unfold units. cbn. rewrite app_nil_r. reflexivity. Qed.

Lemma presents_units tl order :
  presents tl order -> Forall (fun d => d ∈ units tl) order.
Proof.
  induction 1 as [|n o tl os Hn _ IH]; [constructor|].
  apply Forall_app. split.
  - apply presents_node_units in Hn.
    apply (Forall_impl _ _ _ Hn). intros d Hd.
    rewrite units_cons. apply elem_of_app. left. exact Hd.
  - apply (Forall_impl _ _ _ IH). intros d Hd.
    rewrite units_cons. apply elem_of_app. right. exact Hd.
Qed.

Lemma variants_untagged tl :
  a_timeline tl -> Forall (fun d => untagged d = true) (units tl).
Proof.
  intros [[iw ->]|[[iw ->]| ->]]; cbn; repeat constructor.
Qed.

Lemma variants_task_tag_only tl :
  a_timeline tl -> Forall (fun d => task_tag_only d = true) (units tl).
Proof.
  intros [[iw ->]|[[iw ->]| ->]]; cbn; repeat constructor.
Qed.

(** On the trials of the three variants the two versions of the engine
    store the same record, as long as the plugin reports no [task]: which
    of the descriptor and the plugin wins on a shared property does not
    matter here. *)
Lemma trial_record_either_order tl d out :
  a_timeline tl -> d ∈ units tl -> plugin_output out = true ->
  trial_record d out = trial_record_plugin_first d out.
Proof.
  intros Htl Hd Hout.
  pose proof (variants_task_tag_only tl Htl) as Hall.
  rewrite Forall_forall in Hall. specialize (Hall d Hd).
  unfold task_tag_only in Hall.
  unfold trial_record, trial_record_plugin_first, plugin_output in *.
  destruct (data_of d) as [tk re co cr r sv].
  destruct re, co, cr, r, sv; try discriminate Hall.
  destruct out as [otk ore oco ocr or osv]. cbn in *.
  destruct otk; [discriminate Hout|].
  destruct tk, ore, oco, ocr, or, osv; reflexivity.
Qed.

Lemma untagged_record d out :
  untagged d = true -> plugin_output out = true ->
  flagged (trial_record d out) = false
  /\ DataCollection.task_is task_response (trial_record d out) = false.
Proof.
  unfold untagged, plugin_output, flagged, DataCollection.task_is, trial_record.
  cbn [saveIncrementally task].
  destruct (saveIncrementally (data_of d)), (task (data_of d)) as [[]|],
    (task out), (saveIncrementally out); try discriminate; split; reflexivity.
Qed.

Lemma session_records_untagged tl order outs :
  a_timeline tl -> presents tl order -> forallb plugin_output outs = true ->
  Forall (fun r => flagged r = false
                   /\ DataCollection.task_is task_response r = false)
         (session_records order outs).
Proof.
  intros Htl Hp Houts. unfold session_records.
  apply presents_units in Hp.
  pose proof (variants_untagged tl Htl) as Hun.
  rewrite Forall_forall in Hun.
  revert outs Houts.
  induction Hp as [|d order Hd _ IH]; intros outs Houts; [constructor|].
  destruct outs as [|out outs]; [constructor|].
  cbn [forallb] in Houts. apply andb_prop in Houts as [Hout Houts].
  cbn [zip_with]. constructor; [|apply IH; exact Houts].
  apply untagged_record; [apply Hun; exact Hd|exact Hout].
Qed.

Lemma filter_none {A} (f : A -> bool) (l : list A) :
  Forall (fun x => f x = false) l -> List.filter f l = [].
Proof.
  induction 1 as [|x l Hx _ IH]; [reflexivity|]. cbn. rewrite Hx. exact IH.
Qed.

(** X15. In none of the three variants does a trial ask for an incremental
    save: the plugins report no [saveIncrementally] key and no descriptor
    adds one. So in every session of every variant, whatever the order, the
    answers and the fate of the promises, the adapter receives no save-one
    call; the final save is the only one. *)
Theorem variants_never_save_incrementally env page tl order outs evs :
  a_timeline tl -> presents tl order -> forallb plugin_output outs = true ->
  units_completed evs = session_records order outs ->
  save_one_calls (run env evs (start env page)) = []
  /\ Forall (fun c => is_partial c = false)
            (adapter_calls (run env evs (start env page))).
Proof.
  intros Htl Hp Houts Hevs.
  assert (save_one_calls (run env evs (start env page)) = []) as Hnone.
  { rewrite run_save_one. unfold save_one_calls at 1.
    rewrite start_calls, Hevs. cbn [List.filter app].
    rewrite filter_none; [reflexivity|].
    apply (Forall_impl _ _ _ (session_records_untagged tl order outs Htl Hp Houts)).
    intros r [Hr _]. exact Hr. }
  split; [exact Hnone|].
  apply Forall_forall. intros c Hc.
  destruct c as [r|rs]; [|reflexivity].
  apply partial_call_is_save_one in Hc. rewrite Hnone in Hc.
  apply elem_of_nil in Hc. contradiction.
Qed.

Lemma variants_never_save_witness :
  save_one_calls
    (run env_live
       (map unit_completed
          (session_records
             [preload; welcome; Hosting.instructions;
              Variant0.trial1 (of_Z 1280)]
             [no_data; key_press resp_left true 812; key_press resp_right true 455;
              key_press resp_left false 2310])
        ++ [timeline_finished; settle 0 fulfilled])
       (start env_live (EnginePage (Some ""))))
  = []
  /\ Forall (fun c => is_partial c = false)
       (adapter_calls
          (run env_live
             (map unit_completed
                (session_records
                   [preload; welcome; Hosting.instructions;
                    Variant0.trial1 (of_Z 1280)]
                   [no_data; key_press resp_left true 812;
                    key_press resp_right true 455; key_press resp_left false 2310])
              ++ [timeline_finished; settle 0 fulfilled])
             (start env_live (EnginePage (Some ""))))).
Proof.
  apply (variants_never_save_incrementally env_live (EnginePage (Some ""))
           (Variant0.timeline (of_Z 1280))
           [preload; welcome; Hosting.instructions; Variant0.trial1 (of_Z 1280);
            Hosting.trial2 (of_Z 1280); Hosting.trial3 (of_Z 1280)]
           [no_data; key_press resp_left true 812; key_press resp_right true 455;
            key_press resp_left false 2310]).
  - right. left. exists (of_Z 1280). reflexivity.
  - repeat (apply (presents_cons (trial _) [_]); [constructor|]). constructor.
  - reflexivity.
  - reflexivity.
Defined.

(** X16. In the variant with the debrief screen no trial is tagged as a
    response trial, so the summary has nothing to count: whatever the
    participant did, and at whatever point of the session the text is
    computed, it reads NaN for the accuracy and NaN for the reaction
    time. *)
Theorem debrief_variant_reads_NaN order outs :
  presents Variant1.timeline order -> forallb plugin_output outs = true ->
  debrief_stimulus {| trials := session_records order outs |}
  = Some (debrief_html "NaN" "NaN").
Proof.
  intros Hp Houts.
  assert (response_trials {| trials := session_records order outs |} = []) as Hnone.
  { unfold response_trials. cbn [trials]. apply filter_none.
    apply (Forall_impl _ _ _
             (session_records_untagged Variant1.timeline order outs
                (or_intror (or_intror eq_refl)) Hp Houts)).
    intros r [_ Hr]. exact Hr. }
  unfold debrief_stimulus. rewrite debrief_summary_counts.
  unfold correct_response_trials. rewrite Hnone. reflexivity.
Qed.

Lemma debrief_variant_witness :
  debrief_stimulus
    {| trials :=
         session_records
           [preload; welcome; Variant1.instructions; Variant1.rdk_trial;
            Variant1.debrief_block]
           [no_data; key_press resp_left true 812; key_press resp_right true 455;
            key_press resp_left true 640] |}
  = Some (debrief_html "NaN" "NaN").
Proof.
  apply (debrief_variant_reads_NaN
           [preload; welcome; Variant1.instructions; Variant1.rdk_trial;
            Variant1.debrief_block]
           [no_data; key_press resp_left true 812; key_press resp_right true 455;
            key_press resp_left true 640]).
  - repeat (apply (presents_cons (trial _) [_]); [constructor|]). constructor.
  - reflexivity.
Defined.

(** X17. Every dot-motion trial of the three variants is written as its
    plugin requires: each parameter given per aperture (the distances, the
    colours, the numbers of dots, the centres) has exactly as many entries
    as the trial has apertures, at every window width. *)
Theorem rdk_trials_well_formed tl :
  a_timeline tl -> forallb Rdk.well_formed (rdk_trials tl) = true.
Proof.
  intros [[iw ->]|[[iw ->]| ->]]; reflexivity.
Qed.

Lemma rdk_trials_well_formed_witness :
  forallb Rdk.well_formed (rdk_trials (Hosting.timeline (of_Z 1920))) = true.
Proof.
  apply (rdk_trials_well_formed (Hosting.timeline (of_Z 1920))).
  left. exists (of_Z 1920). reflexivity.
Defined.
